(** * Leader Homecoming: the flight-state derivation pipeline

    A shallow embedding of [src/app/page.tsx]: the scan of the OpenSky
    snapshot that picks the tracked aircraft, the haversine distance, the
    longitude bucket that names the region, the ETA split and the poll
    cycle that rewrites the component state.

    Conventions of the embedding.
    - A JavaScript [number] is a real number ([R]): arithmetic is the
      exact one, and [NaN] and the infinities, which JSON cannot carry,
      are left out.  [Math.sin], [Math.cos], [Math.sqrt] and [Math.atan2]
      are the mathematical functions.  Statements about values hold of
      the page up to the rounding of doubles.  Rounding can also push the
      haversine term [a] of [calculateDistance] out of [0, 1], and then
      the page computes [NaN]; the definitions that end in [OfA] take the
      computed [a] as their argument and say where that happens.
    - [null] / [undefined] is [None].
    - A string is a [string] of 8-bit character codes.
    - The [useState] cells of the component are the fields of one record
      and [fetchFlightData] is a function from the outcome of the HTTP
      request and the old cells to the new cells. *)

From Stdlib Require Import Reals Lra Lia ZArith Bool List String Ascii.
From Stdlib Require Import Machin.
From Stdlib Require PrimFloat.
Import ListNotations.

Open Scope R_scope.
Open Scope string_scope.
Open Scope list_scope.

(** ** JavaScript primitives *)

Module JS.

(** Truthiness of a number that may be [null]: [null] and [0] are falsy. *)
Definition numTruthy (x : R) : bool :=
  if Req_dec_T x 0 then false else true.

Definition truthy (v : option R) : bool :=
  match v with
  | None => false
  | Some x => numTruthy x
  end.

(** [v > k] where [v] may be [null]: [null] converts to [0]. *)
Definition toNumber (v : option R) : R :=
  match v with
  | None => 0
  | Some x => x
  end.

Definition gtb (x y : R) : bool :=
  if Rlt_dec y x then true else false.

Definition ltb (x y : R) : bool :=
  if Rlt_dec x y then true else false.

(** Truthiness of a string that may be [null]: [null] and the empty string
    are falsy. *)
Definition strTruthy (s : option string) : bool :=
  match s with
  | None | Some EmptyString => false
  | Some _ => true
  end.

(** Truthiness of a boolean that may be [null]. *)
Definition boolTruthy (b : option bool) : bool :=
  match b with
  | Some true => true
  | _ => false
  end.

(** White space and line terminators among the 8-bit codes: TAB, LF, VT, FF,
    CR, SPACE and NBSP. *)
Definition isWhiteSpace (c : ascii) : bool :=
  match nat_of_ascii c with
  | 9%nat | 10%nat | 11%nat | 12%nat | 13%nat | 32%nat | 160%nat => true
  | _ => false
  end.

Fixpoint trimStart (s : string) : string :=
  match s with
  | EmptyString => EmptyString
  | String c s' => if isWhiteSpace c then trimStart s' else s
  end.

Fixpoint trimEnd (s : string) : string :=
  match s with
  | EmptyString => EmptyString
  | String c s' =>
      match trimEnd s' with
      | EmptyString => if isWhiteSpace c then EmptyString else String c EmptyString
      | t => String c t
      end
  end.

(** [String.prototype.trim] *)
Definition trim (s : string) : string := trimEnd (trimStart s).

(** [s.startsWith(p)] *)
Fixpoint startsWith (s p : string) : bool :=
  match p with
  | EmptyString => true
  | String c p' =>
      match s with
      | EmptyString => false
      | String d s' => Ascii.eqb d c && startsWith s' p'
      end
  end.

(** [s.includes(sub)] *)
Fixpoint includes (s sub : string) : bool :=
  startsWith s sub ||
  match s with
  | EmptyString => false
  | String _ s' => includes s' sub
  end.

(** [Math.floor] and [Math.round] (halves go up). *)
Definition floor (x : R) : R := IZR (Zfloor x).
Definition round (x : R) : R := IZR (Zfloor (x + / 2)).

(** [Math.atan2(y, x)] on the reals. *)
Definition atan2 (y x : R) : R :=
  if Rlt_dec 0 x then atan (y / x)
  else if Rlt_dec x 0 then
    if Rle_dec 0 y then atan (y / x) + PI else atan (y / x) - PI
  else if Rlt_dec 0 y then PI / 2
  else if Rlt_dec y 0 then - (PI / 2)
  else 0.

End JS.

(** ** The feed *)

(** One entry of [data.states].  OpenSky sends an array; the fields the
    page reads are index 1 (callsign), 5 (longitude), 6 (latitude),
    7 (barometric altitude, metres), 8 (on ground) and 9 (velocity, m/s). *)
Record State : Type := mkState {
  st_callsign : option string;
  st_lon : option R;
  st_lat : option R;
  st_baroAltitude : option R;
  st_onGround : option bool;
  st_velocity : option R
}.

(** [state[1] ? state[1].trim() : ""] *)
Definition callsignOf (state : State) : string :=
  if JS.strTruthy (st_callsign state)
  then match st_callsign state with Some s => JS.trim s | None => "" end
  else "".

(** [!onGround && lat && lon && altitude > 6000] *)
Definition cruiseCandidate (state : State) : bool :=
  negb (JS.boolTruthy (st_onGround state))
  && JS.truthy (st_lat state)
  && JS.truthy (st_lon state)
  && JS.gtb (JS.toNumber (st_baroAltitude state)) 6000.

(** [callsign.includes("BG202") || callsign.includes("BBC202")] *)
Definition exactCallsign (callsign : string) : bool :=
  JS.includes callsign "BG202" || JS.includes callsign "BBC202".

(** [callsign.startsWith("BBC")] *)
Definition carrierCallsign (callsign : string) : bool :=
  JS.startsWith callsign "BBC".

Definition isSome {A : Type} (o : option A) : bool :=
  match o with Some _ => true | None => false end.

(** The [for (const state of data.states)] loop, from the value
    [targetFlight] has when an iteration starts.  The result is the value
    of [targetFlight] when the loop is left, with the number of records
    the loop has looked at ([break] leaves the rest unread). *)
Fixpoint scanStates (targetFlight : option State) (states : list State)
  : option State * nat :=
  match states with
  | [] => (targetFlight, 0%nat)
  | state :: rest =>
      let callsign := callsignOf state in
      if cruiseCandidate state then
        if exactCallsign callsign then (Some state, 1%nat)
        else
          let targetFlight' :=
            if carrierCallsign callsign && negb (isSome targetFlight)
            then Some state else targetFlight in
          let (r, n) := scanStates targetFlight' rest in (r, S n)
      else
        let (r, n) := scanStates targetFlight rest in (r, S n)
  end.

(** [let targetFlight = null; for ... ] *)
Definition selectTrackedFlight (states : list State) : option State :=
  fst (scanStates None states).

Definition recordsScanned (states : list State) : nat :=
  snd (scanStates None states).

(** ** Route constants and geo math *)

Module Geo.
Record LatLon : Type := mkLatLon { lat : R; lon : R }.
End Geo.

Definition departure : Geo.LatLon := {| Geo.lat := 51.47; Geo.lon := -0.4543 |}.
Definition arrival : Geo.LatLon := {| Geo.lat := 23.8103; Geo.lon := 90.4125 |}.

Record Waypoint : Type := mkWaypoint {
  wp_name : string;
  wp_lat : R;
  wp_lon : R;
  wp_region : string
}.

Definition waypoints : list Waypoint :=
  [ mkWaypoint "London" 51.47 (-0.4543) "United Kingdom";
    mkWaypoint "Brussels" 50.8 4.3 "Belgium";
    mkWaypoint "Munich" 48.1 11.6 "Germany";
    mkWaypoint "Vienna" 48.2 16.4 "Austria";
    mkWaypoint "Istanbul" 41.0 29.0 "Turkey";
    mkWaypoint "Ankara" 39.9 32.8 "Turkey";
    mkWaypoint "Tehran" 35.7 51.4 "Iran";
    mkWaypoint "Mashhad" 36.3 59.6 "Iran";
    mkWaypoint "Kabul" 34.5 69.2 "Afghanistan";
    mkWaypoint "Islamabad" 33.7 73.1 "Pakistan";
    mkWaypoint "Lahore" 31.5 74.3 "Pakistan";
    mkWaypoint "Delhi" 28.6 77.2 "India";
    mkWaypoint "Kolkata" 22.6 88.4 "India";
    mkWaypoint "Dhaka" 23.8103 90.4125 "Bangladesh" ].

(** [getCurrentRegion(lat, lon)] *)
Definition getCurrentRegion (lat lon : R) : string :=
  if negb (JS.numTruthy lat) || negb (JS.numTruthy lon) then "Unknown"
  else if JS.ltb lon 10 then "Western Europe"
  else if JS.ltb lon 30 then "Eastern Europe"
  else if JS.ltb lon 45 then "Turkey/Middle East"
  else if JS.ltb lon 60 then "Iran"
  else if JS.ltb lon 70 then "Central Asia"
  else if JS.ltb lon 80 then "Pakistan"
  else if JS.ltb lon 88 then "India"
  else "Bangladesh".

(** The quantity [a] of [calculateDistance]. *)
Definition haversineA (lat1 lon1 lat2 lon2 : R) : R :=
  let dLat := ((lat2 - lat1) * PI) / 180 in
  let dLon := ((lon2 - lon1) * PI) / 180 in
  sin (dLat / 2) * sin (dLat / 2) +
  cos ((lat1 * PI) / 180) *
    cos ((lat2 * PI) / 180) *
    sin (dLon / 2) *
    sin (dLon / 2).

(** [calculateDistance(lat1, lon1, lat2, lon2)] *)
Definition calculateDistance (lat1 lon1 lat2 lon2 : R) : R :=
  let R_earth := 6371 in
  let a := haversineA lat1 lon1 lat2 lon2 in
  let c := 2 * JS.atan2 (sqrt a) (sqrt (1 - a)) in
  R_earth * c.

(** ** The component state *)

Record FlightData : Type := mkFlightData {
  currentLat : option R;
  currentLon : option R;
  altitude : R;
  speed : R;
  progress : R;
  currentRegion : string;
  isLive : bool;
  callsign : option string;
  onGround : option bool
}.

(** The four [useState] cells; [lastUpdate] holds the time stamp of
    [new Date()]. *)
Record Cells : Type := mkCells {
  flightData : FlightData;
  loading : bool;
  error : option string;
  lastUpdate : option Z
}.

Definition initialFlightData : FlightData :=
  {| currentLat := None;
     currentLon := None;
     altitude := 0;
     speed := 0;
     progress := 0;
     currentRegion := "Searching...";
     isLive := false;
     callsign := None;
     onGround := None |}.

Definition initialCells : Cells :=
  {| flightData := initialFlightData;
     loading := true;
     error := None;
     lastUpdate := None |}.

Definition setFlightData (fd : FlightData) (c : Cells) : Cells :=
  {| flightData := fd; loading := loading c; error := error c;
     lastUpdate := lastUpdate c |}.
Definition setLoading (b : bool) (c : Cells) : Cells :=
  {| flightData := flightData c; loading := b; error := error c;
     lastUpdate := lastUpdate c |}.
Definition setError (e : option string) (c : Cells) : Cells :=
  {| flightData := flightData c; loading := loading c; error := e;
     lastUpdate := lastUpdate c |}.
Definition setLastUpdate (d : option Z) (c : Cells) : Cells :=
  {| flightData := flightData c; loading := loading c; error := error c;
     lastUpdate := d |}.

(** ** The poll cycle *)

(** What a [catch] can receive. *)
Inductive Thrown : Type :=
  | ErrorObject (message : string)
  | OtherValue.

(** What [await fetch(...)] followed by [await response.json()] yields:
    either of them throws, the status is not a success, or the payload is
    read and [data.states] is an array or is missing. *)
Inductive FetchOutcome : Type :=
  | Throws (e : Thrown)
  | StatusNotOk
  | Payload (states : option (list State)).

Definition msgFetchFailed : string := "Failed to fetch flight data".
Definition msgNoStates : string :=
  "No Biman Bangladesh flights currently tracked - BG202 may not be in the air".
Definition msgNoMatch : string :=
  "BG202 not currently in flight - Flight may be scheduled later".
Definition msgNoSuitable : string := "No suitable flights found in the area".
Definition msgUnknown : string := "Unknown error occurred".

(** [baroAltitude ? Math.round(baroAltitude * 3.28084) : 0] *)
Definition altitudeFeetOf (baroAltitude : option R) : R :=
  if JS.truthy baroAltitude
  then JS.round (JS.toNumber baroAltitude * 3.28084) else 0.

(** [velocity ? Math.round(velocity * 2.23694) : 0] *)
Definition speedMphOf (velocity : option R) : R :=
  if JS.truthy velocity
  then JS.round (JS.toNumber velocity * 2.23694) else 0.

(** [Math.min(distanceFromDeparture / totalDistance, 1)] for the current
    position [lat], [lon]. *)
Definition progressOf (lat lon : R) : R :=
  let totalDistance :=
    calculateDistance (Geo.lat departure) (Geo.lon departure)
                      (Geo.lat arrival) (Geo.lon arrival) in
  let distanceFromDeparture :=
    calculateDistance (Geo.lat departure) (Geo.lon departure)
                      lat lon in
  Rmin (distanceFromDeparture / totalDistance) 1.

(** [callsign?.trim() || "Unknown"] *)
Definition displayCallsign (callsign : option string) : string :=
  match callsign with
  | None => "Unknown"
  | Some s => match JS.trim s with
              | EmptyString => "Unknown"
              | t => t
              end
  end.

(** The object handed to [setFlightData] at line 203, where [lat] and
    [lon] are fields 6 and 5 of [targetFlight]. *)
Definition buildFlightData (targetFlight : State) : FlightData :=
  let lon := st_lon targetFlight in
  let lat := st_lat targetFlight in
  {| currentLat := lat;
     currentLon := lon;
     altitude := altitudeFeetOf (st_baroAltitude targetFlight);
     speed := speedMphOf (st_velocity targetFlight);
     progress := progressOf (JS.toNumber lat) (JS.toNumber lon);
     currentRegion := getCurrentRegion (JS.toNumber lat) (JS.toNumber lon);
     isLive := true;
     callsign := Some (displayCallsign (st_callsign targetFlight));
     onGround := st_onGround targetFlight |}.

(** The body of the [try] block: the cells it leaves, or the value it
    throws.  The [else] of line 219 runs only when [targetFlight] is null,
    and then the function has returned at line 165. *)
Definition tryBlock (now : Z) (outcome : FetchOutcome) (c : Cells)
  : Thrown + Cells :=
  match outcome with
  | Throws e => inl e
  | StatusNotOk => inl (ErrorObject msgFetchFailed)
  | Payload None | Payload (Some []) =>
      inr (setLoading false (setError (Some msgNoStates) c))
  | Payload (Some states) =>
      match selectTrackedFlight states with
      | None => inr (setLoading false (setError (Some msgNoMatch) c))
      | Some targetFlight =>
          if JS.truthy (st_lat targetFlight) && JS.truthy (st_lon targetFlight)
          then
            inr (setError None
                  (setLoading false
                    (setLastUpdate (Some now)
                      (setFlightData (buildFlightData targetFlight) c))))
          else inr c
      end
  end.

(** The [catch] block. *)
Definition catchBlock (err : Thrown) (c : Cells) : Cells :=
  match err with
  | ErrorObject message => setLoading false (setError (Some message) c)
  | OtherValue => setLoading false (setError (Some msgUnknown) c)
  end.

(** [fetchFlightData], run at time [now] on the outcome of the request. *)
Definition fetchFlightData (now : Z) (outcome : FetchOutcome) (c : Cells) : Cells :=
  match tryBlock now outcome c with
  | inl err => catchBlock err c
  | inr c' => c'
  end.

(** The cells after the polls of a run, oldest first. *)
Fixpoint runPolls (polls : list (Z * FetchOutcome)) (c : Cells) : Cells :=
  match polls with
  | [] => c
  | (now, outcome) :: rest => runPolls rest (fetchFlightData now outcome c)
  end.

(** ** ETA *)

Record ETA : Type := mkETA { hours : R; minutes : R }.

(** [calculateETA()], reading the [flightData] cell. *)
Definition calculateETA (flightData : FlightData) : ETA :=
  if negb (JS.truthy (currentLat flightData))
     || negb (JS.numTruthy (speed flightData))
     || (if Req_dec_T (speed flightData) 0 then true else false)
  then {| hours := 0; minutes := 0 |}
  else
    let distanceToDestination :=
      calculateDistance (JS.toNumber (currentLat flightData))
                        (JS.toNumber (currentLon flightData))
                        (Geo.lat arrival) (Geo.lon arrival) in
    let speedKmh := speed flightData * 1.60934 in
    let hoursRemaining := distanceToDestination / speedKmh in
    let hours := JS.floor hoursRemaining in
    let minutes := JS.round ((hoursRemaining - hours) * 60) in
    {| hours := hours; minutes := minutes |}.

(** ** Vocabulary of the selector properties *)

(** A record the loop takes as the exact match: it passes the guard of line
    146 and its trimmed callsign holds one of the two flight identifiers. *)
Definition isExact (state : State) : bool :=
  cruiseCandidate state && exactCallsign (callsignOf state).

(** A record the loop may latch as the fallback. *)
Definition isFallback (state : State) : bool :=
  cruiseCandidate state && carrierCallsign (callsignOf state).

(** The guard of line 146 in words: airborne (the on-ground flag is false
    or missing), both coordinates present and not zero, altitude present
    and above 6000 m. *)
Definition CruiseRecord (state : State) : Prop :=
  st_onGround state <> Some true /\
  (exists la, st_lat state = Some la /\ la <> 0) /\
  (exists lo, st_lon state = Some lo /\ lo <> 0) /\
  (exists alt, st_baroAltitude state = Some alt /\ alt > 6000).

(** The same with the coordinates only required to be present. *)
Definition CruiseRecordWithCoordinates (state : State) : Prop :=
  st_onGround state <> Some true /\
  (exists la, st_lat state = Some la) /\
  (exists lo, st_lon state = Some lo) /\
  (exists alt, st_baroAltitude state = Some alt /\ alt > 6000).

(** The reasons of exclusion the specification lists. *)
Definition ExcludedAsSpecified (state : State) : Prop :=
  st_onGround state = Some true \/
  st_lat state = None \/
  st_lon state = None \/
  (exists alt, st_baroAltitude state = Some alt /\ alt < 6000).

(** The reasons of exclusion of the guard. *)
Definition ExcludedByGuard (state : State) : Prop :=
  st_onGround state = Some true \/
  (st_lat state = None \/ st_lat state = Some 0) \/
  (st_lon state = None \/ st_lon state = Some 0) \/
  (st_baroAltitude state = None \/
   exists alt, st_baroAltitude state = Some alt /\ alt <= 6000).

(** No record of the list is an exact match. *)
Definition NoExact (states : list State) : Prop :=
  forall state, In state states -> isExact state = false.

(** The longitude buckets as a table of exclusive upper bounds. *)
Definition regionThresholds : list (R * string) :=
  [ (10, "Western Europe");
    (30, "Eastern Europe");
    (45, "Turkey/Middle East");
    (60, "Iran");
    (70, "Central Asia");
    (80, "Pakistan");
    (88, "India") ].

Fixpoint lookupRegion (table : list (R * string)) (default : string) (lon : R)
  : string :=
  match table with
  | [] => default
  | (bound, name) :: rest =>
      if JS.ltb lon bound then name else lookupRegion rest default lon
  end.

Fixpoint ascending (bounds : list R) : Prop :=
  match bounds with
  | [] => True
  | b :: rest =>
      match rest with
      | [] => True
      | b' :: _ => b < b' /\ ascending rest
      end
  end.

(** [isLive == true] implies the position is present. *)
Definition LivePositioned (fd : FlightData) : Prop :=
  isLive fd = true -> isSome (currentLat fd) = true /\ isSome (currentLon fd) = true.

(** ** Sample records *)

(** Flight BG202 in cruise over eastern Turkey, callsign padded as OpenSky
    sends it. *)
Definition recBG202 : State :=
  mkState (Some "BG202   ") (Some 45.2) (Some 38.1) (Some 10000) (Some false) (Some 250).

(** Two other aircraft of the carrier in cruise. *)
Definition recBBC777 : State :=
  mkState (Some "BBC777  ") (Some 77.2) (Some 28.6) (Some 11000) (Some false) (Some 240).
Definition recBBC303 : State :=
  mkState (Some "BBC303  ") (Some 88.4) (Some 22.6) (Some 10500) (Some false) (Some 245).

(** BG202 in cruise on the Greenwich meridian. *)
Definition recMeridian : State :=
  mkState (Some "BG202   ") (Some 0) (Some 51.5) (Some 10000) (Some false) (Some 250).

(** BG202 airborne at exactly 6000 m. *)
Definition recAt6000 : State :=
  mkState (Some "BG202   ") (Some 45.2) (Some 38.1) (Some 6000) (Some false) (Some 250).

(** BG202 on the ground in Dhaka, and climbing out below 6000 m. *)
Definition recGround : State :=
  mkState (Some "BG202   ") (Some 90.4) (Some 23.84) (Some 10) (Some true) (Some 5).
Definition recLow : State :=
  mkState (Some "BBC303  ") (Some 90.1) (Some 24.0) (Some 3000) (Some false) (Some 150).

(** BG202 in cruise due north of Dhaka at 223.5 m/s. *)
Definition recNorthOfDhaka : State :=
  mkState (Some "BG202   ") (Some 90.4125) (Some 31.0183) (Some 10668) (Some false)
          (Some 223.5).

(** ** The rest of the page: bounding box, projection, view *)

(** The bounding box of the request (lines 106 to 109). *)
Definition lamin : R := 20.
Definition lomin : R := -5.
Definition lamax : R := 55.
Definition lomax : R := 95.

Definition flightNumber : string := "Biman Bangladesh".

Definition mapWidth : R := 1000.
Definition mapHeight : R := 500.
Definition padding : R := 80.

(** [Math.min(...xs)] and [Math.max(...xs)] of a list that is not empty.
    On the empty list JavaScript answers with an infinity, which the reals
    lack; the page spreads the waypoint literal, which has fourteen
    entries, and the value 0 given here for the empty list is never read. *)
Definition spreadMin (xs : list R) : R :=
  match xs with
  | [] => 0
  | x :: rest => fold_left Rmin rest x
  end.

Definition spreadMax (xs : list R) : R :=
  match xs with
  | [] => 0
  | x :: rest => fold_left Rmax rest x
  end.

Definition minLon : R := spreadMin (map wp_lon waypoints) - 5.
Definition maxLon : R := spreadMax (map wp_lon waypoints) + 5.
Definition minLat : R := spreadMin (map wp_lat waypoints) - 5.
Definition maxLat : R := spreadMax (map wp_lat waypoints) + 5.

Definition lonRange : R := maxLon - minLon.
Definition latRange : R := maxLat - minLat.

(** [projectX(lon)] and [projectY(lat)] *)
Definition projectX (lon : R) : R :=
  ((lon - minLon) / lonRange) * (mapWidth - 2 * padding) + padding.

Definition projectY (lat : R) : R :=
  mapHeight -
  ((lat - minLat) / latRange) * (mapHeight - 2 * padding) -
  padding.

(** [planeX] and [planeY], read off the [flightData] cell. *)
Definition planeX (flightData : FlightData) : R :=
  if JS.truthy (currentLon flightData)
  then projectX (JS.toNumber (currentLon flightData))
  else projectX (Geo.lon departure).

Definition planeY (flightData : FlightData) : R :=
  if JS.truthy (currentLat flightData)
  then projectY (JS.toNumber (currentLat flightData))
  else projectY (Geo.lat departure).

(** [getPlaneAngle()] *)
Definition getPlaneAngle (flightData : FlightData) : R :=
  if negb (JS.truthy (currentLat flightData))
     || negb (JS.truthy (currentLon flightData))
  then 90
  else
    let dx := Geo.lon arrival - JS.toNumber (currentLon flightData) in
    let dy := Geo.lat arrival - JS.toNumber (currentLat flightData) in
    JS.atan2 dx dy * (180 / PI).

(** The [pathCoords] and [planePosition] props handed to the map. *)
Definition pathCoords : list (R * R) :=
  map (fun w => (wp_lat w, wp_lon w)) waypoints.

Definition planePosition (flightData : FlightData) : option (R * R) :=
  if JS.truthy (currentLat flightData) && JS.truthy (currentLon flightData)
  then Some (JS.toNumber (currentLat flightData),
             JS.toNumber (currentLon flightData))
  else None.

(** The status banner (lines 332 to 374): the spinner, the warning with
    the error text, or the summary with callsign, ETA and percentage. *)
Inductive Banner : Type :=
  | BannerSearching
  | BannerWarning (text : string)
  | BannerSummary (callsign : string) (eta : ETA) (percent : R).

(** [Math.round(flightData.progress * 100)] *)
Definition progressPercent (flightData : FlightData) : R :=
  JS.round (progress flightData * 100).

(** [flightData.callsign || flightNumber] *)
Definition bannerCallsign (flightData : FlightData) : string :=
  if JS.strTruthy (callsign flightData)
  then match callsign flightData with Some s => s | None => flightNumber end
  else flightNumber.

Definition statusBanner (c : Cells) : Banner :=
  if loading c then BannerSearching
  else if JS.strTruthy (error c) then
    BannerWarning
      (String.append (match error c with Some e => e | None => "" end)
                     " - Using simulated data for demonstration")
  else
    BannerSummary (bannerCallsign (flightData c))
                  (calculateETA (flightData c))
                  (progressPercent (flightData c)).

(** ** Vocabulary of the further properties *)

(** The record a poll settles on, if any: the payload carries a feed and
    the loop returns a record of it. *)
Definition pollTarget (outcome : FetchOutcome) : option State :=
  match outcome with
  | Payload (Some states) => selectTrackedFlight states
  | _ => None
  end.

(** The cosine of the angle at the centre of the sphere between two points
    given in degrees (spherical law of cosines). *)
Definition centralAngleCos (lat1 lon1 lat2 lon2 : R) : R :=
  sin (lat1 * PI / 180) * sin (lat2 * PI / 180) +
  cos (lat1 * PI / 180) * cos (lat2 * PI / 180) *
    cos ((lon2 - lon1) * PI / 180).

(** What the cells can hold: nothing found yet, or the state built from a
    record that the loop selected, stamped with the time of that poll. *)
Definition ReachableShape (c : Cells) : Prop :=
  (flightData c = initialFlightData /\ lastUpdate c = None) \/
  (exists targetFlight now,
     cruiseCandidate targetFlight = true /\
     (isExact targetFlight = true \/ isFallback targetFlight = true) /\
     flightData c = buildFlightData targetFlight /\
     lastUpdate c = Some now).

(** The message a poll without a target leaves in the [error] cell. *)
Definition failureMessage (outcome : FetchOutcome) : string :=
  match outcome with
  | Throws (ErrorObject message) => message
  | Throws OtherValue => msgUnknown
  | StatusNotOk => msgFetchFailed
  | Payload None | Payload (Some []) => msgNoStates
  | Payload (Some _) => msgNoMatch
  end.

(** A number that is an integer. *)
Definition isInteger (x : R) : Prop := exists z : Z, x = IZR z.

(** BG202 just above the guard, at 6050 m. *)
Definition recAt6050 : State :=
  mkState (Some "BG202   ") (Some 45.2) (Some 38.1) (Some 6050) (Some false) (Some 250).

(** ** Where rounding matters: [calculateDistance] from the computed [a] *)

(** [Math.sqrt], with NaN as [None]. *)
Definition sqrtOrNaN (x : R) : option R :=
  if Rlt_dec x 0 then None else Some (sqrt x).

(** Lines 97 and 98 of [calculateDistance], from the value lines 91 to 96
    left in [a].  A NaN square root makes [Math.atan2], [c] and the
    product NaN. *)
Definition distanceOfA (a : R) : option R :=
  match sqrtOrNaN a, sqrtOrNaN (1 - a) with
  | Some y, Some x =>
      let c := 2 * JS.atan2 y x in
      Some (6371 * c)
  | _, _ => None
  end.

(** Line 201, from the [a] computed for the distance from the departure
    point: [Math.min] of NaN and 1 is NaN. *)
Definition progressOfA (a : R) : option R :=
  let totalDistance :=
    calculateDistance (Geo.lat departure) (Geo.lon departure)
                      (Geo.lat arrival) (Geo.lon arrival) in
  match distanceOfA a with
  | Some distanceFromDeparture =>
      Some (Rmin (distanceFromDeparture / totalDistance) 1)
  | None => None
  end.

(** Lines 89 to 97 on doubles, as far as the four operations and the
    square root go: the arguments handed to [Math.sin] and [Math.cos], [a]
    from the four values they return, and [Math.sqrt(1 - a)]. *)
Module Double.
Import PrimFloat.

Definition PI : float := 0x1.921fb54442d18p+1%float.

(** [((x2 - x1) * Math.PI) / 180 / 2] *)
Definition halfDelta (x1 x2 : float) : float :=
  PrimFloat.div
    (PrimFloat.div (PrimFloat.mul (PrimFloat.sub x2 x1) PI) 180%float)
    2%float.

(** [(x * Math.PI) / 180] *)
Definition radians (x : float) : float :=
  PrimFloat.div (PrimFloat.mul x PI) 180%float.

Definition haversineA (sinHalfDLat cosLat1 cosLat2 sinHalfDLon : float) : float :=
  PrimFloat.add
    (PrimFloat.mul sinHalfDLat sinHalfDLat)
    (PrimFloat.mul
       (PrimFloat.mul (PrimFloat.mul cosLat1 cosLat2) sinHalfDLon)
       sinHalfDLon).

Definition sqrtOneMinusA (a : float) : float :=
  PrimFloat.sqrt (PrimFloat.sub 1%float a).

End Double.

(** ** Further sample records *)

(** A carrier aircraft airborne at exactly 6000 m, and one in cruise on
    the Greenwich meridian. *)
Definition recBBC303At6000 : State :=
  mkState (Some "BBC303  ") (Some 88.4) (Some 22.6) (Some 6000) (Some false) (Some 245).
Definition recBBC303Meridian : State :=
  mkState (Some "BBC303  ") (Some 0) (Some 51.5) (Some 10500) (Some false) (Some 245).

(** A carrier aircraft in cruise whose callsign comes padded on both
    sides. *)
Definition recBBC404 : State :=
  mkState (Some "  BBC404 ") (Some 69.2) (Some 34.5) (Some 10400) (Some false) (Some 242).

(** BG202 in cruise with the on-ground field missing. *)
Definition recNoGroundFlag : State :=
  mkState (Some "BG202   ") (Some 45.2) (Some 38.1) (Some 10000) None (Some 250).

(** BG202 in cruise next to the antipode of Heathrow. *)
Definition recAntipode : State :=
  mkState (Some "BG202   ") (Some 179.5457) (Some (-51.47000026)) (Some 10000)
          (Some false) (Some 250).

(** ** Evaluation of the numeric tests *)

Lemma numTruthy_true (x : R) : x <> 0 -> JS.numTruthy x = true.
Proof. intro H. unfold JS.numTruthy. destruct (Req_dec_T x 0); [contradiction | reflexivity]. Qed.

Lemma numTruthy_false (x : R) : x = 0 -> JS.numTruthy x = false.
Proof. intro H. unfold JS.numTruthy. destruct (Req_dec_T x 0); [reflexivity | contradiction]. Qed.

Lemma numTruthy_iff (x : R) : JS.numTruthy x = true <-> x <> 0.
Proof.
  unfold JS.numTruthy. destruct (Req_dec_T x 0); split; intro H;
    try reflexivity; try discriminate; try assumption; contradiction.
Qed.

Lemma gtb_true (x y : R) : y < x -> JS.gtb x y = true.
Proof. intro H. unfold JS.gtb. destruct (Rlt_dec y x); [reflexivity | contradiction]. Qed.

Lemma gtb_false (x y : R) : x <= y -> JS.gtb x y = false.
Proof. intro H. unfold JS.gtb. destruct (Rlt_dec y x); [lra | reflexivity]. Qed.

Lemma gtb_iff (x y : R) : JS.gtb x y = true <-> y < x.
Proof.
  unfold JS.gtb. destruct (Rlt_dec y x); split; intro H;
    try reflexivity; try discriminate; try assumption; contradiction.
Qed.

Lemma ltb_true (x y : R) : x < y -> JS.ltb x y = true.
Proof. intro H. unfold JS.ltb. destruct (Rlt_dec x y); [reflexivity | contradiction]. Qed.

Lemma ltb_false (x y : R) : y <= x -> JS.ltb x y = false.
Proof. intro H. unfold JS.ltb. destruct (Rlt_dec x y); [lra | reflexivity]. Qed.

(** Decides the numeric tests of a closed term. *)
Ltac js_num :=
  repeat first
    [ rewrite numTruthy_true by lra
    | rewrite numTruthy_false by lra
    | rewrite gtb_true by lra
    | rewrite gtb_false by lra
    | rewrite ltb_true by lra
    | rewrite ltb_false by lra ].

(** ** The guard of the scan *)

Lemma boolTruthy_true_iff (b : option bool) :
  JS.boolTruthy b = true <-> b = Some true.
Proof. destruct b as [[|]|]; simpl; split; intro H; congruence. Qed.

Lemma boolTruthy_false_iff (b : option bool) :
  JS.boolTruthy b = false <-> b <> Some true.
Proof. destruct b as [[|]|]; simpl; split; intro H; congruence. Qed.

Lemma cruiseCandidate_iff (state : State) :
  cruiseCandidate state = true <-> CruiseRecord state.
Proof.
  unfold cruiseCandidate, CruiseRecord.
  destruct state as [cs lo la alt og v]; simpl.
  rewrite !andb_true_iff, negb_true_iff, boolTruthy_false_iff.
  split.
  - intros [[[Hg Hla] Hlo] Halt].
    destruct la as [la|]; [|discriminate].
    destruct lo as [lo|]; [|discriminate].
    simpl in Hla, Hlo.
    apply numTruthy_iff in Hla. apply numTruthy_iff in Hlo.
    apply gtb_iff in Halt.
    destruct alt as [alt|]; simpl in Halt; [|lra].
    repeat split; eauto.
  - intros [Hg [[x [-> Hla]] [[y [-> Hlo]] [z [-> Halt]]]]]; simpl.
    rewrite (numTruthy_true x), (numTruthy_true y), gtb_true by (assumption || lra).
    auto.
Qed.

Lemma cruiseCandidate_false_iff (state : State) :
  cruiseCandidate state = false <-> ExcludedByGuard state.
Proof.
  unfold cruiseCandidate, ExcludedByGuard.
  destruct state as [cs lo la alt og v]; simpl.
  rewrite !andb_false_iff, negb_false_iff, boolTruthy_true_iff.
  split.
  - intros [[[H | H] | H] | H].
    + auto.
    + right; left. destruct la as [la|]; [|auto]. simpl in H.
      right. f_equal. unfold JS.numTruthy in H.
      destruct (Req_dec_T la 0); [assumption | discriminate].
    + right; right; left. destruct lo as [lo|]; [|auto]. simpl in H.
      right. f_equal. unfold JS.numTruthy in H.
      destruct (Req_dec_T lo 0); [assumption | discriminate].
    + right; right; right. destruct alt as [alt|]; [|auto]. simpl in H.
      right. exists alt. split; [reflexivity|].
      unfold JS.gtb in H. destruct (Rlt_dec 6000 alt); [discriminate | lra].
  - intros [H | [[H | H] | [[H | H] | [H | [z [H Halt]]]]]]; subst; simpl.
    + auto.
    + auto.
    + left; left; right. apply numTruthy_false; reflexivity.
    + auto.
    + left; right. apply numTruthy_false; reflexivity.
    + right. apply gtb_false; lra.
    + right. apply gtb_false; lra.
Qed.

(** ** The scan *)

Section Scan.

Implicit Types (states pre post : list State) (t : option State).

Lemma NoExact_cons state states :
  NoExact (state :: states) <-> isExact state = false /\ NoExact states.
Proof.
  unfold NoExact; split.
  - intro H; split; [apply H; left; reflexivity | intros s Hs; apply H; right; exact Hs].
  - intros [H1 H2] s [<- | Hs]; auto.
Qed.

(** One iteration that is not an exact match. *)
Lemma scanStates_step t state rest :
  isExact state = false ->
  scanStates t (state :: rest) =
    let t' := if isFallback state && negb (isSome t) then Some state else t in
    (fst (scanStates t' rest), S (snd (scanStates t' rest))).
Proof.
  unfold isExact, isFallback; intro H; simpl.
  destruct (cruiseCandidate state); simpl in *.
  - rewrite H. destruct (scanStates _ rest); reflexivity.
  - destruct (scanStates t rest); reflexivity.
Qed.

(** An exact match ends the loop whatever was latched and whatever follows. *)
Lemma scanStates_exact t state rest :
  isExact state = true -> scanStates t (state :: rest) = (Some state, 1%nat).
Proof.
  unfold isExact; intro H; apply andb_true_iff in H as [H1 H2]; simpl.
  rewrite H1, H2; reflexivity.
Qed.

(** A latched record survives every record that is not an exact match. *)
Lemma scanStates_latched state states :
  NoExact states ->
  scanStates (Some state) states = (Some state, List.length states).
Proof.
  induction states as [|s rest IH]; intro H; [reflexivity|].
  apply NoExact_cons in H as [H1 H2].
  rewrite scanStates_step by assumption; simpl.
  rewrite andb_false_r, IH by assumption; reflexivity.
Qed.

(** Without an exact match the loop reads everything and ends on the first
    fallback record. *)
Lemma scanStates_fallback states :
  NoExact states ->
  scanStates None states = (find isFallback states, List.length states).
Proof.
  induction states as [|s rest IH]; intro H; [reflexivity|].
  apply NoExact_cons in H as [H1 H2].
  rewrite scanStates_step by assumption; simpl.
  rewrite andb_true_r.
  destruct (isFallback s).
  - rewrite scanStates_latched by assumption; reflexivity.
  - rewrite IH by assumption; reflexivity.
Qed.

(** The loop stops on the first exact match. *)
Lemma scanStates_first_exact t pre state post :
  NoExact pre -> isExact state = true ->
  scanStates t (pre ++ state :: post) = (Some state, S (List.length pre)).
Proof.
  revert t; induction pre as [|s pre IH]; intros t Hpre Hex; simpl app.
  - apply scanStates_exact; assumption.
  - apply NoExact_cons in Hpre as [H1 H2].
    rewrite scanStates_step by assumption; simpl.
    rewrite IH by assumption; reflexivity.
Qed.

(** A list with an exact match splits at the first one. *)
Lemma first_exact_split states :
  (exists state, In state states /\ isExact state = true) ->
  exists pre e post,
    states = pre ++ e :: post /\ NoExact pre /\ isExact e = true.
Proof.
  induction states as [|s rest IH]; intros [x [Hin Hx]]; [destruct Hin|].
  destruct (isExact s) eqn:Hs.
  - exists [], s, rest; repeat split; auto. intros y [].
  - destruct IH as [pre [e [post [-> [Hpre He]]]]].
    { destruct Hin as [<- | Hin]; [congruence | eauto]. }
    exists (s :: pre), e, post; repeat split; auto.
    apply NoExact_cons; auto.
Qed.

(** What the loop returns is one of the records it was given, or what was
    latched before. *)
Lemma scanStates_result t states r :
  fst (scanStates t states) = Some r ->
  t = Some r \/ (In r states /\ cruiseCandidate r = true).
Proof.
  revert t; induction states as [|s rest IH]; intros t H; simpl in H.
  - left; exact H.
  - destruct (cruiseCandidate s) eqn:Hc.
    + destruct (exactCallsign (callsignOf s)).
      * simpl in H. injection H as <-. right; split; [left; reflexivity | exact Hc].
      * destruct (scanStates _ rest) as [r' n] eqn:E. simpl in H; subst r'.
        specialize (IH _ ltac:(rewrite E; reflexivity)).
        destruct IH as [IH | [IH1 IH2]].
        -- destruct (carrierCallsign (callsignOf s) && negb (isSome t)).
           ++ injection IH as <-. right; split; [left; reflexivity | exact Hc].
           ++ left; exact IH.
        -- right; split; [right; exact IH1 | exact IH2].
    + destruct (scanStates t rest) as [r' n] eqn:E. simpl in H; subst r'.
      specialize (IH _ ltac:(rewrite E; reflexivity)).
      destruct IH as [IH | [IH1 IH2]]; [left; exact IH|].
      right; split; [right; exact IH1 | exact IH2].
Qed.

End Scan.

(** ** The sample records under the guard *)

Ltac guard_eval :=
  unfold cruiseCandidate; simpl st_onGround; simpl st_lat; simpl st_lon;
  simpl st_baroAltitude; unfold JS.truthy, JS.toNumber; js_num; reflexivity.

Lemma recBG202_exact : isExact recBG202 = true.
Proof.
  unfold isExact. replace (exactCallsign (callsignOf recBG202)) with true by reflexivity.
  rewrite andb_true_r. guard_eval.
Qed.

Lemma recBBC777_not_exact : isExact recBBC777 = false.
Proof.
  unfold isExact. replace (exactCallsign (callsignOf recBBC777)) with false by reflexivity.
  apply andb_false_r.
Qed.

Lemma recBBC777_fallback : isFallback recBBC777 = true.
Proof.
  unfold isFallback. replace (carrierCallsign (callsignOf recBBC777)) with true by reflexivity.
  rewrite andb_true_r. guard_eval.
Qed.

Lemma recBBC303_not_exact : isExact recBBC303 = false.
Proof.
  unfold isExact. replace (exactCallsign (callsignOf recBBC303)) with false by reflexivity.
  apply andb_false_r.
Qed.

Lemma recBBC303_fallback : isFallback recBBC303 = true.
Proof.
  unfold isFallback. replace (carrierCallsign (callsignOf recBBC303)) with true by reflexivity.
  rewrite andb_true_r. guard_eval.
Qed.

Lemma recMeridian_excluded : cruiseCandidate recMeridian = false.
Proof. guard_eval. Qed.

Lemma recAt6000_excluded : cruiseCandidate recAt6000 = false.
Proof. guard_eval. Qed.

Lemma recGround_excluded : cruiseCandidate recGround = false.
Proof. reflexivity. Qed.

Lemma recLow_excluded : cruiseCandidate recLow = false.
Proof. guard_eval. Qed.

Lemma recNorthOfDhaka_exact : isExact recNorthOfDhaka = true.
Proof.
  unfold isExact. replace (exactCallsign (callsignOf recNorthOfDhaka)) with true by reflexivity.
  rewrite andb_true_r. guard_eval.
Qed.

(** A record the guard rejects is neither an exact match nor a fallback,
    and the loop passes over it. *)
Lemma excluded_not_exact state : cruiseCandidate state = false -> isExact state = false.
Proof. unfold isExact; intros ->; reflexivity. Qed.

Lemma excluded_not_fallback state : cruiseCandidate state = false -> isFallback state = false.
Proof. unfold isFallback; intros ->; reflexivity. Qed.

Lemma isExact_iff state :
  isExact state = true <->
  CruiseRecord state /\ exactCallsign (callsignOf state) = true.
Proof.
  unfold isExact. rewrite andb_true_iff, cruiseCandidate_iff. reflexivity.
Qed.

Lemma isFallback_iff state :
  isFallback state = true <->
  CruiseRecord state /\ carrierCallsign (callsignOf state) = true.
Proof.
  unfold isFallback. rewrite andb_true_iff, cruiseCandidate_iff. reflexivity.
Qed.

Lemma find_none_all_false {A : Type} (f : A -> bool) (l : list A) :
  (forall x, In x l -> f x = false) -> find f l = None.
Proof.
  induction l as [|a l IH]; intro H; [reflexivity|]. simpl.
  rewrite (H a) by (left; reflexivity). apply IH. intros x Hx; apply H; right; exact Hx.
Qed.

Lemma find_first {A : Type} (f : A -> bool) (pre post : list A) (x : A) :
  find f pre = None -> f x = true -> find f (pre ++ x :: post) = Some x.
Proof.
  induction pre as [|a pre IH]; simpl; intros Hpre Hx.
  - rewrite Hx; reflexivity.
  - destruct (f a); [discriminate | auto].
Qed.

(** ** Properties of the selector *)

(** C1, as the specification words it, fails: a record in cruise with both
    coordinates present and callsign BG202 is not returned when one of its
    coordinates is the number 0.  Here BG202 crosses the Greenwich
    meridian and is alone in the feed. *)
Lemma select_exact_with_coordinates_counterexample :
  In recMeridian [recMeridian] /\
  CruiseRecordWithCoordinates recMeridian /\
  exactCallsign (callsignOf recMeridian) = true /\
  selectTrackedFlight [recMeridian] = None.
Proof.
  split; [left; reflexivity|].
  split.
  { unfold CruiseRecordWithCoordinates; simpl.
    split; [discriminate|].
    repeat split; eauto. exists 10000. split; [reflexivity | lra]. }
  split; [reflexivity|].
  unfold selectTrackedFlight.
  rewrite scanStates_fallback.
  - simpl. rewrite excluded_not_fallback by apply recMeridian_excluded. reflexivity.
  - intros s [<- | []]. apply excluded_not_exact, recMeridian_excluded.
Qed.

(** C1, amended: when the feed holds an airborne record with both
    coordinates present and not zero, altitude above 6000 m and a trimmed
    callsign containing "BG202" or "BBC202", [selectTrackedFlight] returns
    the first such record; the loop reads nothing after it, and neither a
    fallback latched before it nor anything placed after it changes the
    result. *)
Theorem selectTrackedFlight_first_exact (states : list State) :
  (exists state, In state states /\ CruiseRecord state /\
                 exactCallsign (callsignOf state) = true) ->
  exists pre e post,
    states = pre ++ e :: post /\
    (forall s, In s pre ->
       ~ (CruiseRecord s /\ exactCallsign (callsignOf s) = true)) /\
    CruiseRecord e /\ exactCallsign (callsignOf e) = true /\
    selectTrackedFlight states = Some e /\
    recordsScanned states = S (List.length pre) /\
    (forall latched post',
       scanStates latched (pre ++ e :: post') = (Some e, S (List.length pre))).
Proof.
  intros [x [Hin Hx]].
  destruct (first_exact_split states) as [pre [e [post [-> [Hpre He]]]]].
  { exists x; split; [exact Hin | apply isExact_iff; exact Hx]. }
  exists pre, e, post.
  pose proof (proj1 (isExact_iff e) He) as [He1 He2].
  split; [reflexivity|].
  split.
  { intros s Hs Habs. apply isExact_iff in Habs. rewrite (Hpre s Hs) in Habs. discriminate. }
  split; [exact He1|]. split; [exact He2|].
  unfold selectTrackedFlight, recordsScanned.
  rewrite (scanStates_first_exact None pre e post Hpre He); simpl.
  repeat split.
  intros latched post'. apply scanStates_first_exact; assumption.
Qed.

Lemma selectTrackedFlight_first_exact_witness :
  exists pre e post,
    [recBBC777; recBG202; recBBC303] = pre ++ e :: post /\
    (forall s, In s pre ->
       ~ (CruiseRecord s /\ exactCallsign (callsignOf s) = true)) /\
    CruiseRecord e /\ exactCallsign (callsignOf e) = true /\
    selectTrackedFlight [recBBC777; recBG202; recBBC303] = Some e /\
    recordsScanned [recBBC777; recBG202; recBBC303] = S (List.length pre) /\
    (forall latched post',
       scanStates latched (pre ++ e :: post') = (Some e, S (List.length pre))).
Proof.
  apply (selectTrackedFlight_first_exact [recBBC777; recBG202; recBBC303]).
  exists recBG202. split; [right; left; reflexivity|].
  apply isExact_iff, recBG202_exact.
Defined.

Lemma recBBC404_not_exact : isExact recBBC404 = false.
Proof.
  unfold isExact. replace (exactCallsign (callsignOf recBBC404)) with false by reflexivity.
  apply andb_false_r.
Qed.

Lemma recBBC404_fallback : isFallback recBBC404 = true.
Proof.
  unfold isFallback. replace (carrierCallsign (callsignOf recBBC404)) with true by reflexivity.
  rewrite andb_true_r. guard_eval.
Qed.

Lemma recBBC303At6000_excluded : cruiseCandidate recBBC303At6000 = false.
Proof. guard_eval. Qed.

Lemma recBBC303Meridian_excluded : cruiseCandidate recBBC303Meridian = false.
Proof. guard_eval. Qed.

(** The loop passes over a leading record that the guard rejects. *)
Lemma selectTrackedFlight_skip state states :
  cruiseCandidate state = false ->
  selectTrackedFlight (state :: states) = selectTrackedFlight states.
Proof.
  intro H. unfold selectTrackedFlight. simpl. rewrite H.
  destruct (scanStates None states). reflexivity.
Qed.

Lemma selectTrackedFlight_single_fallback state :
  isExact state = false -> isFallback state = true ->
  selectTrackedFlight [state] = Some state.
Proof.
  intros He Hf. unfold selectTrackedFlight. rewrite scanStates_fallback.
  - simpl. rewrite Hf. reflexivity.
  - intros s [<- | []]. exact He.
Qed.

(** C2, as the specification words it, fails.  With rule 1 read as the
    specification states it (on the ground, a coordinate missing, or below
    6000 m), a carrier aircraft airborne at exactly 6000 m, or in cruise
    on longitude 0, passes rule 1; placed first in a feed without any
    exact callsign it is the first fallback candidate, yet the loop
    returns the carrier aircraft that follows it. *)
Lemma fallback_rule1_as_specified_counterexample :
  (forall s, In s [recBBC303At6000; recBBC303Meridian; recBBC777] ->
     exactCallsign (callsignOf s) = false) /\
  ~ ExcludedAsSpecified recBBC303At6000 /\
  carrierCallsign (callsignOf recBBC303At6000) = true /\
  selectTrackedFlight [recBBC303At6000; recBBC777] = Some recBBC777 /\
  selectTrackedFlight [recBBC303At6000; recBBC777] <> Some recBBC303At6000 /\
  ~ ExcludedAsSpecified recBBC303Meridian /\
  carrierCallsign (callsignOf recBBC303Meridian) = true /\
  selectTrackedFlight [recBBC303Meridian; recBBC777] = Some recBBC777 /\
  selectTrackedFlight [recBBC303Meridian; recBBC777] <> Some recBBC303Meridian.
Proof.
  assert (Hsel : forall r, cruiseCandidate r = false ->
                 selectTrackedFlight [r; recBBC777] = Some recBBC777).
  { intros r Hr. rewrite selectTrackedFlight_skip by exact Hr.
    apply selectTrackedFlight_single_fallback.
    - apply recBBC777_not_exact.
    - apply recBBC777_fallback. }
  assert (Hdiff : forall r, st_callsign r = Some "BBC303  " -> Some recBBC777 <> Some r).
  { intros r Hr H. injection H as H. rewrite <- H in Hr. discriminate. }
  split; [intros s [<- | [<- | [<- | []]]]; reflexivity|].
  split.
  { unfold ExcludedAsSpecified; simpl.
    intros [H | [H | [H | [alt [H1 H2]]]]]; try discriminate.
    injection H1 as <-. lra. }
  split; [reflexivity|].
  split; [apply Hsel, recBBC303At6000_excluded|].
  split; [rewrite Hsel by apply recBBC303At6000_excluded; apply Hdiff; reflexivity|].
  split.
  { unfold ExcludedAsSpecified; simpl.
    intros [H | [H | [H | [alt [H1 H2]]]]]; try discriminate.
    injection H1 as <-. lra. }
  split; [reflexivity|].
  split; [apply Hsel, recBBC303Meridian_excluded|].
  rewrite Hsel by apply recBBC303Meridian_excluded. apply Hdiff. reflexivity.
Qed.

(** C2, amended: in a feed without an exact match [selectTrackedFlight]
    returns the first record, in feed order, that passes the guard of line
    146 (airborne, both coordinates present and not zero, altitude present
    and above 6000 m) and whose trimmed callsign starts with "BBC".  That
    record is latched when the loop reaches it, it is still the target
    when the loop ends, and from then on the target can only become an
    exact match. *)
Theorem selectTrackedFlight_first_fallback (states : list State) :
  NoExact states ->
  selectTrackedFlight states = find isFallback states /\
  (forall pre f post,
     states = pre ++ f :: post ->
     find isFallback pre = None -> isFallback f = true ->
     selectTrackedFlight states = Some f /\
     fst (scanStates None (pre ++ [f])) = Some f /\
     fst (scanStates (Some f) post) = Some f /\
     (forall later,
        fst (scanStates (Some f) later) = Some f \/
        exists e, In e later /\ isExact e = true /\
                  fst (scanStates (Some f) later) = Some e)) /\
  (forall s, isFallback s = true <->
             CruiseRecord s /\ carrierCallsign (callsignOf s) = true) /\
  (forall s, isExact s = true <->
             CruiseRecord s /\ exactCallsign (callsignOf s) = true).
Proof.
  intro Hno.
  assert (Hsel : selectTrackedFlight states = find isFallback states).
  { unfold selectTrackedFlight. rewrite scanStates_fallback by assumption. reflexivity. }
  split; [exact Hsel|].
  split; [|split; [exact isFallback_iff | exact isExact_iff]].
  intros pre f post -> Hpre Hf.
  assert (Hpre' : NoExact pre).
  { intros s Hs. apply Hno, in_or_app; left; exact Hs. }
  assert (Hf' : isExact f = false).
  { apply Hno, in_or_app; right; left; reflexivity. }
  assert (Hpost : NoExact post).
  { intros s Hs. apply Hno, in_or_app; right; right; exact Hs. }
  split; [rewrite Hsel; apply find_first; assumption|].
  split.
  { rewrite scanStates_fallback.
    - simpl. apply find_first; assumption.
    - intros s Hs. apply in_app_or in Hs as [Hs | [<- | []]]; auto. }
  split; [rewrite scanStates_latched by assumption; reflexivity|].
  intro later.
  destruct (existsb isExact later) eqn:E.
  - right. apply existsb_exists in E.
    destruct (first_exact_split later E) as [p [e [q [-> [Hp He]]]]].
    exists e. split; [apply in_or_app; right; left; reflexivity|].
    split; [exact He|].
    rewrite scanStates_first_exact by assumption. reflexivity.
  - left. rewrite scanStates_latched; [reflexivity|].
    intros s Hs. destruct (isExact s) eqn:Es; [|reflexivity].
    assert (existsb isExact later = true) by (apply existsb_exists; eauto).
    congruence.
Qed.

Lemma selectTrackedFlight_first_fallback_witness :
  selectTrackedFlight [recBBC303At6000; recBBC404; recBBC777] = Some recBBC404 /\
  fst (scanStates None ([recBBC303At6000] ++ [recBBC404])) = Some recBBC404 /\
  fst (scanStates (Some recBBC404) [recBBC777]) = Some recBBC404.
Proof.
  assert (Hno : NoExact [recBBC303At6000; recBBC404; recBBC777]).
  { intros s [<- | [<- | [<- | []]]].
    - apply excluded_not_exact, recBBC303At6000_excluded.
    - apply recBBC404_not_exact.
    - apply recBBC777_not_exact. }
  destruct (selectTrackedFlight_first_fallback
              [recBBC303At6000; recBBC404; recBBC777] Hno) as [_ [H _]].
  destruct (H [recBBC303At6000] recBBC404 [recBBC777]) as [H1 [H2 [H3 _]]].
  - reflexivity.
  - simpl. rewrite excluded_not_fallback by apply recBBC303At6000_excluded. reflexivity.
  - apply recBBC404_fallback.
  - split; [exact H1 | split; [exact H2 | exact H3]].
Defined.

(** C3, as the specification words it, fails: an airborne record with both
    coordinates and altitude exactly 6000 m is excluded, though it is not
    on the ground, misses no coordinate and is not below 6000 m. *)
Lemma rule1_filter_counterexample :
  cruiseCandidate recAt6000 = false /\
  ~ ExcludedAsSpecified recAt6000 /\
  ~ (cruiseCandidate recAt6000 = false <-> ExcludedAsSpecified recAt6000).
Proof.
  assert (H : ~ ExcludedAsSpecified recAt6000).
  { unfold ExcludedAsSpecified; simpl.
    intros [H | [H | [H | [alt [H1 H2]]]]]; try discriminate.
    injection H1 as <-. lra. }
  split; [apply recAt6000_excluded|].
  split; [exact H|].
  intros [Habs _]. apply H, Habs, recAt6000_excluded.
Qed.

(** C3, amended: the guard excludes a record if and only if it is on the
    ground, or its latitude or longitude is missing or zero, or its
    altitude is missing or at most 6000 m; a record at exactly 6000 m is
    excluded, and a record is kept for the two callsign rules exactly when
    it is airborne with non-zero coordinates above 6000 m. *)
Theorem rule1_filter_characterised :
  (forall state, cruiseCandidate state = false <-> ExcludedByGuard state) /\
  (forall state, cruiseCandidate state = true <-> CruiseRecord state) /\
  (forall cs lo la og v,
     cruiseCandidate (mkState cs lo la (Some 6000) og v) = false).
Proof.
  split; [exact cruiseCandidate_false_iff|].
  split; [exact cruiseCandidate_iff|].
  intros cs lo la og v. apply cruiseCandidate_false_iff.
  unfold ExcludedByGuard; simpl.
  right; right; right; right. exists 6000. split; [reflexivity | lra].
Qed.

(** C10: a record whose latitude or longitude is the number 0 is never the
    one [selectTrackedFlight] returns, whatever its altitude and callsign. *)
Theorem selectTrackedFlight_never_zero_coordinate
  (states : list State) (state : State) :
  In state states ->
  st_lat state = Some 0 \/ st_lon state = Some 0 ->
  selectTrackedFlight states <> Some state.
Proof.
  intros _ Hz Hsel.
  apply scanStates_result in Hsel as [Habs | [_ Hc]]; [discriminate|].
  apply cruiseCandidate_iff in Hc as [_ [[la [Hla Hla0]] [[lo [Hlo Hlo0]] _]]].
  destruct Hz as [Hz | Hz]; congruence.
Qed.

Lemma selectTrackedFlight_never_zero_coordinate_witness :
  selectTrackedFlight [recBBC777; recMeridian] <> Some recMeridian.
Proof.
  apply (selectTrackedFlight_never_zero_coordinate [recBBC777; recMeridian] recMeridian).
  - right; left; reflexivity.
  - right; reflexivity.
Defined.

(** ** The poll cycle *)

Lemma fetch_not_ok now c :
  fetchFlightData now StatusNotOk c = setLoading false (setError (Some msgFetchFailed) c).
Proof. reflexivity. Qed.

Lemma fetch_no_match now c state states :
  selectTrackedFlight (state :: states) = None ->
  fetchFlightData now (Payload (Some (state :: states))) c =
    setLoading false (setError (Some msgNoMatch) c).
Proof. unfold fetchFlightData, tryBlock. intros ->. reflexivity. Qed.

(** The loop only returns records that pass the guard, so the test of
    line 182 succeeds on them. *)
Lemma selected_is_candidate states targetFlight :
  selectTrackedFlight states = Some targetFlight ->
  cruiseCandidate targetFlight = true.
Proof.
  intro H. apply scanStates_result in H as [H | [_ H]]; [discriminate | exact H].
Qed.

Lemma candidate_has_position state :
  cruiseCandidate state = true ->
  JS.truthy (st_lat state) = true /\ JS.truthy (st_lon state) = true.
Proof.
  unfold cruiseCandidate. rewrite !andb_true_iff. tauto.
Qed.

Lemma truthy_isSome (v : option R) : JS.truthy v = true -> isSome v = true.
Proof. destruct v; [reflexivity | discriminate]. Qed.

Lemma fetch_match now c state states targetFlight :
  selectTrackedFlight (state :: states) = Some targetFlight ->
  fetchFlightData now (Payload (Some (state :: states))) c =
    setError None
      (setLoading false
        (setLastUpdate (Some now)
          (setFlightData (buildFlightData targetFlight) c))).
Proof.
  intro H. unfold fetchFlightData, tryBlock. rewrite H.
  destruct (candidate_has_position _ (selected_is_candidate _ _ H)) as [-> ->].
  reflexivity.
Qed.

(** Every outcome either leaves the [flightData] cell as it was or fills
    it with a built value. *)
Lemma fetch_flightData now outcome c :
  flightData (fetchFlightData now outcome c) = flightData c \/
  exists targetFlight,
    JS.truthy (st_lat targetFlight) = true /\
    JS.truthy (st_lon targetFlight) = true /\
    flightData (fetchFlightData now outcome c) = buildFlightData targetFlight.
Proof.
  unfold fetchFlightData, tryBlock.
  destruct outcome as [[m|] | | [[|s states]|]]; simpl; auto.
  destruct (selectTrackedFlight (s :: states)) as [t|]; simpl; auto.
  destruct (JS.truthy (st_lat t)) eqn:Hla; simpl; auto.
  destruct (JS.truthy (st_lon t)) eqn:Hlo; simpl; auto.
  right. exists t. auto.
Qed.

(** C6: [selectTrackedFlight] returns none for the empty feed and for any
    feed in which every record is rejected by the guard or carries neither
    an exact nor a carrier callsign; the poll then shows a message that
    differs from the one of a request answered with a non-success status.
    A thrown error shows its own message. *)
Theorem no_match_distinct_from_fetch_failure
  (states : list State) (now : Z) (c : Cells) :
  (forall s, In s states ->
     cruiseCandidate s = false \/
     (exactCallsign (callsignOf s) = false /\
      carrierCallsign (callsignOf s) = false)) ->
  selectTrackedFlight [] = None /\
  selectTrackedFlight states = None /\
  error (fetchFlightData now StatusNotOk c) = Some msgFetchFailed /\
  (states = [] ->
   error (fetchFlightData now (Payload (Some states)) c) = Some msgNoStates) /\
  (states <> [] ->
   error (fetchFlightData now (Payload (Some states)) c) = Some msgNoMatch) /\
  error (fetchFlightData now (Payload (Some states)) c) <>
    error (fetchFlightData now StatusNotOk c) /\
  (forall message,
     error (fetchFlightData now (Throws (ErrorObject message)) c) = Some message).
Proof.
  intro H.
  assert (Hsel : selectTrackedFlight states = None).
  { unfold selectTrackedFlight. rewrite scanStates_fallback.
    - simpl. apply find_none_all_false. intros s Hs. unfold isFallback.
      destruct (H s Hs) as [-> | [_ ->]]; [reflexivity | apply andb_false_r].
    - intros s Hs. unfold isExact.
      destruct (H s Hs) as [-> | [-> _]]; [reflexivity | apply andb_false_r]. }
  split; [reflexivity|].
  split; [exact Hsel|].
  split; [reflexivity|].
  split; [intros ->; reflexivity|].
  split.
  { intro Hne. destruct states as [|s rest]; [congruence|].
    rewrite fetch_no_match by assumption. reflexivity. }
  split; [|reflexivity].
  destruct states as [|s rest].
  - simpl. discriminate.
  - rewrite fetch_no_match by assumption. simpl. discriminate.
Qed.

Lemma no_match_distinct_from_fetch_failure_witness :
  selectTrackedFlight [recGround; recLow] = None /\
  error (fetchFlightData 0 (Payload (Some [recGround; recLow])) initialCells) =
    Some msgNoMatch /\
  error (fetchFlightData 0 StatusNotOk initialCells) = Some msgFetchFailed.
Proof.
  destruct (no_match_distinct_from_fetch_failure [recGround; recLow] 0 initialCells)
    as [_ [H1 [H2 [_ [H3 _]]]]].
  - intros s [<- | [<- | []]]; left.
    + apply recGround_excluded.
    + apply recLow_excluded.
  - split; [exact H1|]. split; [apply H3; discriminate | exact H2].
Defined.

(** The invariant is not empty: a poll that finds the flight sets [isLive]. *)
Lemma isLive_reachable :
  isLive (flightData (runPolls [(0%Z, Payload (Some [recNorthOfDhaka]))] initialCells))
  = true.
Proof.
  simpl runPolls. rewrite (fetch_match _ _ _ _ recNorthOfDhaka); [reflexivity|].
  unfold selectTrackedFlight.
  rewrite scanStates_exact by apply recNorthOfDhaka_exact. reflexivity.
Qed.

(** C8: in the initial state and in the state after every poll of every
    run, [isLive] being true implies that [currentLat] and [currentLon]
    are not null. *)
Theorem isLive_implies_position (polls : list (Z * FetchOutcome)) :
  LivePositioned initialFlightData /\
  LivePositioned (flightData (runPolls polls initialCells)).
Proof.
  split; [intro H; discriminate|].
  assert (Hinit : LivePositioned (flightData initialCells)) by (intro H; discriminate).
  revert Hinit. generalize initialCells as c.
  induction polls as [|[now outcome] rest IH]; intros c Hc; [exact Hc|].
  simpl. apply IH.
  destruct (fetch_flightData now outcome c) as [-> | [t [Hla [Hlo ->]]]]; [exact Hc|].
  intros _. simpl. split; apply truthy_isSome; assumption.
Qed.

(** ** Geo math *)

Lemma PI_lower : 3.13 < PI.
Proof.
  pose proof (PI_2_3_7_ineq 0) as [H _].
  unfold sum_f_R0, tg_alt, PI_2_3_7_tg, Ratan_seq in H. simpl in H.
  lra.
Qed.

Lemma PI_upper : PI < 3.15.
Proof.
  pose proof (PI_2_3_7_ineq 1) as [_ H].
  unfold sum_f_R0, tg_alt, PI_2_3_7_tg, Ratan_seq in H. simpl in H.
  lra.
Qed.

Lemma haversineA_sym lat1 lon1 lat2 lon2 :
  haversineA lat1 lon1 lat2 lon2 = haversineA lat2 lon2 lat1 lon1.
Proof.
  unfold haversineA.
  replace ((lat1 - lat2) * PI / 180 / 2) with (- ((lat2 - lat1) * PI / 180 / 2)) by field.
  replace ((lon1 - lon2) * PI / 180 / 2) with (- ((lon2 - lon1) * PI / 180 / 2)) by field.
  rewrite !sin_neg. ring.
Qed.

Lemma haversineA_same lat1 lon1 : haversineA lat1 lon1 lat1 lon1 = 0.
Proof.
  unfold haversineA.
  replace ((lat1 - lat1) * PI / 180 / 2) with 0 by field.
  replace ((lon1 - lon1) * PI / 180 / 2) with 0 by field.
  rewrite sin_0. ring.
Qed.

(** [a] is a sum of a square and, for latitudes, of a product of squares;
    it lies in [0, 1] for all arguments, so neither square root of
    [calculateDistance] is taken of a negative number. *)
Lemma haversineA_range lat1 lon1 lat2 lon2 :
  0 <= haversineA lat1 lon1 lat2 lon2 <= 1.
Proof.
  unfold haversineA.
  set (p1 := lat1 * PI / 180). set (p2 := lat2 * PI / 180).
  set (dl := (lon2 - lon1) * PI / 180 / 2).
  replace ((lat2 - lat1) * PI / 180 / 2) with (p2 / 2 - p1 / 2) by (unfold p1, p2; field).
  assert (C1 : cos p1 = cos (p1 / 2) * cos (p1 / 2) - sin (p1 / 2) * sin (p1 / 2)).
  { rewrite <- cos_2a. f_equal. field. }
  assert (C2 : cos p2 = cos (p2 / 2) * cos (p2 / 2) - sin (p2 / 2) * sin (p2 / 2)).
  { rewrite <- cos_2a. f_equal. field. }
  rewrite sin_minus, C1, C2. clear C1 C2.
  pose proof (sin2_cos2 (p1 / 2)) as H1. pose proof (sin2_cos2 (p2 / 2)) as H2.
  pose proof (sin2_cos2 dl) as H3.
  unfold Rsqr in *.
  set (s1 := sin (p1 / 2)) in *. set (c1 := cos (p1 / 2)) in *.
  set (s2 := sin (p2 / 2)) in *. set (c2 := cos (p2 / 2)) in *.
  set (s := sin dl) in *. set (k := cos dl) in *.
  assert (Hs : 0 <= s * s <= 1) by nra.
  set (t := s * s) in *.
  assert (E : (s2 * c1 - c2 * s1) * (s2 * c1 - c2 * s1) +
              (c1 * c1 - s1 * s1) * (c2 * c2 - s2 * s2) * s * s =
              (1 - t) * ((s2 * c1 - c2 * s1) * (s2 * c1 - c2 * s1)) +
              t * ((c1 * c2 - s1 * s2) * (c1 * c2 - s1 * s2))).
  { unfold t.
    replace ((c1 * c1 - s1 * s1) * (c2 * c2 - s2 * s2) * s * s)
      with (s * s * ((c1 * c2 - s1 * s2) * (c1 * c2 - s1 * s2)
                     - (s2 * c1 - c2 * s1) * (s2 * c1 - c2 * s1))) by ring.
    ring. }
  rewrite E.
  assert (Hu : 0 <= (s2 * c1 - c2 * s1) * (s2 * c1 - c2 * s1) <= 1).
  { split; [apply Rle_0_sqr|].
    replace 1 with ((s1 * s1 + c1 * c1) * (s2 * s2 + c2 * c2)) by (rewrite H1, H2; ring).
    pose proof (Rle_0_sqr (s1 * s2 + c1 * c2)) as Hq. unfold Rsqr in Hq. lra. }
  assert (Hv : 0 <= (c1 * c2 - s1 * s2) * (c1 * c2 - s1 * s2) <= 1).
  { split; [apply Rle_0_sqr|].
    replace 1 with ((s1 * s1 + c1 * c1) * (s2 * s2 + c2 * c2)) by (rewrite H1, H2; ring).
    pose proof (Rle_0_sqr (s1 * c2 + c1 * s2)) as Hq. unfold Rsqr in Hq. lra. }
  set (u := (s2 * c1 - c2 * s1) * (s2 * c1 - c2 * s1)) in *.
  set (v := (c1 * c2 - s1 * s2) * (c1 * c2 - s1 * s2)) in *.
  split.
  - apply Rplus_le_le_0_compat; apply Rmult_le_pos; lra.
  - assert ((1 - t) * u <= (1 - t) * 1) by (apply Rmult_le_compat_l; lra).
    assert (t * v <= t * 1) by (apply Rmult_le_compat_l; lra).
    lra.
Qed.

Lemma atan2_nonneg y x : 0 <= y -> 0 <= x -> 0 <= JS.atan2 y x.
Proof.
  intros Hy Hx. unfold JS.atan2.
  destruct (Rlt_dec 0 x) as [Hx0 | Hx0].
  - destruct (Req_dec_T y 0) as [-> | Hy0].
    + unfold Rdiv. rewrite Rmult_0_l, atan_0. lra.
    + left. rewrite <- atan_0. apply atan_increasing.
      apply Rdiv_lt_0_compat; lra.
  - destruct (Rlt_dec x 0); [lra|].
    destruct (Rlt_dec 0 y); [pose proof PI_RGT_0; lra|].
    destruct (Rlt_dec y 0); lra.
Qed.

Lemma atan2_pos y x : 0 < y -> 0 <= x -> 0 < JS.atan2 y x.
Proof.
  intros Hy Hx. unfold JS.atan2.
  destruct (Rlt_dec 0 x) as [Hx0 | Hx0].
  - rewrite <- atan_0. apply atan_increasing. apply Rdiv_lt_0_compat; lra.
  - destruct (Rlt_dec x 0); [lra|].
    destruct (Rlt_dec 0 y); [pose proof PI_RGT_0; lra | lra].
Qed.

Lemma calculateDistance_nonneg lat1 lon1 lat2 lon2 :
  0 <= calculateDistance lat1 lon1 lat2 lon2.
Proof.
  unfold calculateDistance.
  pose proof (atan2_nonneg _ _ (sqrt_pos (haversineA lat1 lon1 lat2 lon2))
                (sqrt_pos (1 - haversineA lat1 lon1 lat2 lon2))).
  lra.
Qed.

(** The route has a length. *)
Lemma totalDistance_pos :
  0 < calculateDistance (Geo.lat departure) (Geo.lon departure)
                        (Geo.lat arrival) (Geo.lon arrival).
Proof.
  unfold calculateDistance.
  assert (Ha : 0 < haversineA (Geo.lat departure) (Geo.lon departure)
                              (Geo.lat arrival) (Geo.lon arrival)).
  { unfold haversineA, departure, arrival; simpl.
    pose proof PI_RGT_0 as Hpi.
    assert (H1 : sin ((23.8103 - 51.47) * PI / 180 / 2) < 0).
    { apply sin_lt_0_var; lra. }
    assert (H2 : 0 < cos (51.47 * PI / 180)) by (apply cos_gt_0; lra).
    assert (H3 : 0 < cos (23.8103 * PI / 180)) by (apply cos_gt_0; lra).
    set (s := sin ((23.8103 - 51.47) * PI / 180 / 2)) in *.
    set (u := sin ((90.4125 - -0.4543) * PI / 180 / 2)).
    assert (0 < s * s) by nra.
    assert (0 <= cos (51.47 * PI / 180) * cos (23.8103 * PI / 180) * (u * u)).
    { apply Rmult_le_pos; [apply Rmult_le_pos; lra | nra]. }
    lra. }
  pose proof (atan2_pos _ _ (sqrt_lt_R0 _ Ha)
                (sqrt_pos (1 - haversineA (Geo.lat departure) (Geo.lon departure)
                                          (Geo.lat arrival) (Geo.lon arrival)))).
  lra.
Qed.

(** C9: [calculateDistance] gives the same distance in both directions,
    and the distance of a point to itself is 0. *)
Theorem calculateDistance_symmetric_and_zero (lat1 lon1 lat2 lon2 : R) :
  calculateDistance lat1 lon1 lat2 lon2 = calculateDistance lat2 lon2 lat1 lon1 /\
  calculateDistance lat1 lon1 lat1 lon1 = 0.
Proof.
  split.
  - unfold calculateDistance. rewrite (haversineA_sym lat1 lon1 lat2 lon2). reflexivity.
  - unfold calculateDistance. rewrite haversineA_same.
    rewrite Rminus_0_r, sqrt_0, sqrt_1.
    unfold JS.atan2. destruct (Rlt_dec 0 1); [|lra].
    unfold Rdiv. rewrite Rmult_0_l, atan_0. ring.
Qed.

(** ** Region label *)

Lemma getCurrentRegion_buckets lat lon :
  lat <> 0 -> lon <> 0 ->
  getCurrentRegion lat lon = lookupRegion regionThresholds "Bangladesh" lon.
Proof.
  intros Hlat Hlon. unfold getCurrentRegion.
  rewrite (numTruthy_true lat), (numTruthy_true lon) by assumption.
  reflexivity.
Qed.

Lemma getCurrentRegion_zero_lon lat : getCurrentRegion lat 0 = "Unknown".
Proof.
  unfold getCurrentRegion. rewrite (numTruthy_false 0) by reflexivity.
  rewrite orb_true_r. reflexivity.
Qed.

(** C7, as the specification words it, fails: on longitude 5 the label is
    "Unknown" at latitude 0 and "Western Europe" at latitude 1. *)
Lemma getCurrentRegion_latitude_counterexample :
  getCurrentRegion 0 5 = "Unknown" /\
  getCurrentRegion 1 5 = "Western Europe" /\
  getCurrentRegion 0 5 <> getCurrentRegion 1 5.
Proof.
  assert (H0 : getCurrentRegion 0 5 = "Unknown").
  { unfold getCurrentRegion. rewrite (numTruthy_false 0) by reflexivity. reflexivity. }
  assert (H1 : getCurrentRegion 1 5 = "Western Europe").
  { rewrite getCurrentRegion_buckets by lra. simpl. js_num. reflexivity. }
  split; [exact H0|]. split; [exact H1|].
  rewrite H0, H1. discriminate.
Qed.

(** C7, amended: for latitudes other than 0 the label depends on the
    longitude alone.  At a longitude other than 0 it is the name attached
    to the first of the ascending exclusive upper bounds 10, 30, 45, 60,
    70, 80, 88 that exceeds the longitude, and "Bangladesh", the region of
    the last waypoint, when none does: longitude 5 gives "Western Europe",
    65 gives "Central Asia", 91 gives "Bangladesh". *)
Theorem getCurrentRegion_longitude_only (lat1 lat2 lon : R) :
  lat1 <> 0 -> lat2 <> 0 ->
  getCurrentRegion lat1 lon = getCurrentRegion lat2 lon /\
  (lon <> 0 ->
   getCurrentRegion lat1 lon = lookupRegion regionThresholds "Bangladesh" lon) /\
  ascending (map fst regionThresholds) /\
  last (map wp_region waypoints) "" = "Bangladesh" /\
  getCurrentRegion lat1 5 = "Western Europe" /\
  getCurrentRegion lat1 65 = "Central Asia" /\
  getCurrentRegion lat1 91 = "Bangladesh".
Proof.
  intros H1 H2.
  split.
  { destruct (Req_dec_T lon 0) as [-> | Hlon].
    - rewrite !getCurrentRegion_zero_lon. reflexivity.
    - rewrite !getCurrentRegion_buckets by assumption. reflexivity. }
  split; [intro Hlon; apply getCurrentRegion_buckets; assumption|].
  split; [simpl; repeat split; lra|].
  split; [reflexivity|].
  rewrite !getCurrentRegion_buckets by (assumption || lra).
  simpl. js_num. repeat split.
Qed.

Lemma getCurrentRegion_longitude_only_witness :
  getCurrentRegion 51.47 65 = getCurrentRegion 23.8103 65 /\
  getCurrentRegion 51.47 65 = "Central Asia".
Proof.
  destruct (getCurrentRegion_longitude_only 51.47 23.8103 65) as [H [_ [_ [_ [_ [H' _]]]]]].
  - lra.
  - lra.
  - split; [exact H | exact H'].
Defined.

(** ** ETA *)

Lemma floor_eq (z : Z) (x : R) : IZR z <= x < IZR z + 1 -> JS.floor x = IZR z.
Proof. intro H. unfold JS.floor. rewrite (Zfloor_eq z x H). reflexivity. Qed.

Lemma round_eq (z : Z) (x : R) :
  IZR z - / 2 <= x < IZR z + / 2 -> JS.round x = IZR z.
Proof.
  intro H. unfold JS.round. rewrite (Zfloor_eq z (x + / 2)); [reflexivity | lra].
Qed.

Lemma floor_bound (x : R) : JS.floor x <= x < JS.floor x + 1.
Proof. unfold JS.floor. apply Zfloor_bound. Qed.

(** On a meridian the haversine formula returns the arc itself. *)
Lemma atan2_of_sin theta :
  0 < theta < PI / 2 ->
  JS.atan2 (sqrt (sin theta * sin theta)) (sqrt (1 - sin theta * sin theta)) = theta.
Proof.
  intros [H0 H1].
  assert (Hs : 0 < sin theta) by (apply sin_gt_0; lra).
  assert (Hc : 0 < cos theta) by (apply cos_gt_0; lra).
  replace (1 - sin theta * sin theta) with (cos theta * cos theta)
    by (pose proof (sin2_cos2 theta) as E; unfold Rsqr in E; lra).
  rewrite !sqrt_square by lra.
  unfold JS.atan2. destruct (Rlt_dec 0 (cos theta)); [|contradiction].
  change (sin theta / cos theta) with (tan theta).
  apply atan_tan. lra.
Qed.

Lemma distance_north_of_dhaka :
  calculateDistance 31.0183 90.4125 (Geo.lat arrival) (Geo.lon arrival) =
  6371 * (2 * (3.604 * PI / 180)).
Proof.
  unfold calculateDistance, haversineA, arrival; simpl.
  replace ((23.8103 - 31.0183) * PI / 180 / 2) with (- (3.604 * PI / 180)) by lra.
  replace ((90.4125 - 90.4125) * PI / 180 / 2) with 0 by lra.
  rewrite sin_neg, sin_0.
  replace (- sin (3.604 * PI / 180) * - sin (3.604 * PI / 180) +
           cos (31.0183 * PI / 180) * cos (23.8103 * PI / 180) * 0 * 0)
    with (sin (3.604 * PI / 180) * sin (3.604 * PI / 180)) by ring.
  rewrite atan2_of_sin; [reflexivity|].
  pose proof PI_RGT_0. lra.
Qed.

Lemma speedMphOf_223_5 : speedMphOf (Some 223.5) = 500.
Proof.
  unfold speedMphOf, JS.truthy, JS.toNumber. js_num.
  apply (round_eq 500). lra.
Qed.

(** What [calculateETA] gives at a positive speed when the distance is a
    number: whole hours that are not negative and minutes between 0 and
    60, both included. *)
Lemma calculateETA_bounds (fd : FlightData) :
  0 < speed fd ->
  0 <= hours (calculateETA fd) /\ 0 <= minutes (calculateETA fd) <= 60.
Proof.
  intro Hs. unfold calculateETA.
  destruct (negb (JS.truthy (currentLat fd)) || negb (JS.numTruthy (speed fd))
            || (if Req_dec_T (speed fd) 0 then true else false)); simpl; [lra|].
  set (d := calculateDistance _ _ _ _).
  assert (Hd : 0 <= d) by apply calculateDistance_nonneg.
  assert (Hh : 0 <= d / (speed fd * 1.60934)).
  { apply Rmult_le_pos; [exact Hd|]. left. apply Rinv_0_lt_compat. lra. }
  set (h := d / (speed fd * 1.60934)) in *.
  pose proof (floor_bound h) as Hf.
  assert (Hz : (0 <= Zfloor h)%Z) by (apply Zfloor_lub; exact Hh).
  assert (Hf0 : 0 <= JS.floor h) by (unfold JS.floor; apply IZR_le; exact Hz).
  split; [exact Hf0|].
  unfold JS.round.
  set (m := (h - JS.floor h) * 60) in *.
  assert (Hm : 0 <= m < 60) by (unfold m; lra).
  assert (H0 : (0 <= Zfloor (m + / 2))%Z) by (apply Zfloor_lub; simpl; lra).
  assert (H60 : (Zfloor (m + / 2) <= 60)%Z).
  { assert (Zfloor (m + / 2) < 61)%Z; [|lia].
    apply lt_IZR. pose proof (Zfloor_bound (m + / 2)). lra. }
  split; [apply IZR_le in H0; exact H0 | apply IZR_le in H60; exact H60].
Qed.

(** C4: the code has no carry.  One poll whose feed holds BG202 in cruise
    due north of Dhaka (31.0183 N, 90.4125 E) at 223.5 m/s stores speed 500
    mph; 801.5 km at 804.67 km/h is 0.996 h, and [calculateETA] returns 0
    hours and 60 minutes. *)
Theorem calculateETA_sixty_minutes :
  flightData (fetchFlightData 0 (Payload (Some [recNorthOfDhaka])) initialCells) =
    buildFlightData recNorthOfDhaka /\
  currentLat (buildFlightData recNorthOfDhaka) = Some 31.0183 /\
  currentLon (buildFlightData recNorthOfDhaka) = Some 90.4125 /\
  speed (buildFlightData recNorthOfDhaka) = 500 /\
  calculateETA (buildFlightData recNorthOfDhaka) =
    {| hours := 0; minutes := 60 |}.
Proof.
  split.
  { rewrite (fetch_match 0 initialCells recNorthOfDhaka [] recNorthOfDhaka);
      [reflexivity|].
    unfold selectTrackedFlight.
    rewrite scanStates_exact by apply recNorthOfDhaka_exact. reflexivity. }
  split; [reflexivity|]. split; [reflexivity|].
  assert (Hspeed : speed (buildFlightData recNorthOfDhaka) = 500)
    by apply speedMphOf_223_5.
  split; [exact Hspeed|].
  unfold calculateETA. rewrite Hspeed.
  simpl currentLat. simpl currentLon. unfold JS.truthy, JS.toNumber.
  js_num. destruct (Req_dec_T 500 0) as [Habs | _]; [lra|]. simpl orb. cbv iota.
  rewrite distance_north_of_dhaka.
  pose proof PI_lower as Hl. pose proof PI_upper as Hu.
  set (h := 6371 * (2 * (3.604 * PI / 180)) / (500 * 1.60934)).
  assert (Hh : h = PI * (6371 * 2 * 3.604 / 180 / (500 * 1.60934))) by (unfold h; lra).
  assert (Hf : JS.floor h = 0).
  { apply (floor_eq 0). rewrite Hh. lra. }
  rewrite Hf. f_equal.
  apply (round_eq 60). rewrite Hh. lra.
Qed.

(** * Further properties of the page *)

(** ** The selector, continued *)

(** What the loop returns, other than what was latched before it started,
    is a record of the list that is an exact match or a fallback. *)
Lemma scanStates_result_kind t states r :
  fst (scanStates t states) = Some r ->
  t = Some r \/
  (In r states /\ (isExact r = true \/ isFallback r = true)).
Proof.
  revert t; induction states as [|s rest IH]; intros t H.
  - left; exact H.
  - destruct (isExact s) eqn:Hs.
    + rewrite scanStates_exact in H by assumption. simpl in H. injection H as <-.
      right; split; [left; reflexivity | left; exact Hs].
    + rewrite scanStates_step in H by assumption. simpl in H.
      apply IH in H as [H | [H1 H2]].
      * destruct (isFallback s) eqn:Hf; simpl in H.
        -- destruct t as [t0|]; simpl in H; [left; exact H|].
           injection H as <-. right; split; [left; reflexivity | right; exact Hf].
        -- left; exact H.
      * right; split; [right; exact H1 | exact H2].
Qed.

Lemma scanStates_filter t states :
  fst (scanStates t (filter cruiseCandidate states)) = fst (scanStates t states).
Proof.
  revert t; induction states as [|s rest IH]; intro t; [reflexivity|].
  simpl. destruct (cruiseCandidate s) eqn:Hc.
  - simpl. rewrite Hc.
    destruct (exactCallsign (callsignOf s)); [reflexivity|].
    specialize (IH (if carrierCallsign (callsignOf s) && negb (isSome t)
                    then Some s else t)).
    destruct (scanStates _ (filter cruiseCandidate rest)), (scanStates _ rest).
    simpl in *. exact IH.
  - specialize (IH t).
    destruct (scanStates t rest). simpl in *. exact IH.
Qed.

Lemma NoExact_existsb states : existsb isExact states = false <-> NoExact states.
Proof.
  split.
  - intros H s Hs. destruct (isExact s) eqn:E; [|reflexivity].
    assert (existsb isExact states = true) by (apply existsb_exists; eauto).
    congruence.
  - intro H. destruct (existsb isExact states) eqn:E; [|reflexivity].
    apply existsb_exists in E as [s [Hs Es]]. rewrite (H s Hs) in Es. discriminate.
Qed.

(** X1: the record [selectTrackedFlight] returns is one of the feed; it is
    airborne with non-zero coordinates above 6000 m, and its trimmed
    callsign contains "BG202" or "BBC202" or starts with "BBC". *)
Theorem selectTrackedFlight_sound (states : list State) (r : State) :
  selectTrackedFlight states = Some r ->
  In r states /\ CruiseRecord r /\
  (exactCallsign (callsignOf r) = true \/ carrierCallsign (callsignOf r) = true).
Proof.
  intro H. apply scanStates_result_kind in H as [H | [Hin Hk]]; [discriminate|].
  split; [exact Hin|].
  destruct Hk as [Hk | Hk].
  - apply isExact_iff in Hk as [H1 H2]. auto.
  - apply isFallback_iff in Hk as [H1 H2]. auto.
Qed.

Lemma selectTrackedFlight_sound_witness :
  In recBG202 [recBBC777; recBG202] /\ CruiseRecord recBG202 /\
  (exactCallsign (callsignOf recBG202) = true \/
   carrierCallsign (callsignOf recBG202) = true).
Proof.
  apply (selectTrackedFlight_sound [recBBC777; recBG202] recBG202).
  unfold selectTrackedFlight.
  change [recBBC777; recBG202] with ([recBBC777] ++ recBG202 :: []).
  rewrite (scanStates_first_exact None [recBBC777] recBG202 []).
  - reflexivity.
  - intros s [<- | []]. apply recBBC777_not_exact.
  - apply recBG202_exact.
Defined.

(** X2: [selectTrackedFlight] returns null exactly when no record of the
    feed passes the guard with an exact or a carrier callsign. *)
Theorem selectTrackedFlight_none_iff (states : list State) :
  selectTrackedFlight states = None <->
  (forall s, In s states -> isExact s = false /\ isFallback s = false).
Proof.
  split.
  - intros H s Hs.
    destruct (existsb isExact states) eqn:E.
    + apply existsb_exists in E.
      destruct (first_exact_split states E) as [pre [e [post [-> [Hpre He]]]]].
      unfold selectTrackedFlight in H.
      rewrite scanStates_first_exact in H by assumption. discriminate.
    + apply NoExact_existsb in E.
      unfold selectTrackedFlight in H.
      rewrite scanStates_fallback in H by assumption. simpl in H.
      split; [apply E; exact Hs|].
      destruct (isFallback s) eqn:Ef; [|reflexivity].
      pose proof (find_none _ _ H s Hs) as Hn. congruence.
  - intro H. unfold selectTrackedFlight.
    rewrite scanStates_fallback by (intros s Hs; apply H; exact Hs).
    simpl. apply find_none_all_false. intros s Hs; apply H; exact Hs.
Qed.

(** X3: records the guard rejects have no influence: dropping them from
    the feed leaves the selection unchanged. *)
Theorem selectTrackedFlight_ignores_excluded (states : list State) :
  selectTrackedFlight (filter cruiseCandidate states) = selectTrackedFlight states.
Proof. unfold selectTrackedFlight. apply scanStates_filter. Qed.

(** X4: when the returned record is not an exact match, the feed holds no
    exact match at all, the returned record is the first fallback of the
    feed and the loop has read every record. *)
Theorem selectTrackedFlight_fallback_only (states : list State) (r : State) :
  selectTrackedFlight states = Some r ->
  exactCallsign (callsignOf r) = false ->
  NoExact states /\ find isFallback states = Some r /\
  recordsScanned states = List.length states.
Proof.
  intros H Hr.
  destruct (existsb isExact states) eqn:E.
  - apply existsb_exists in E.
    destruct (first_exact_split states E) as [pre [e [post [-> [Hpre He]]]]].
    unfold selectTrackedFlight in H.
    rewrite scanStates_first_exact in H by assumption. simpl in H.
    injection H as <-. apply isExact_iff in He as [_ He]. congruence.
  - apply NoExact_existsb in E. split; [exact E|].
    unfold selectTrackedFlight, recordsScanned in *.
    rewrite scanStates_fallback in * by assumption. simpl in *. auto.
Qed.

Lemma selectTrackedFlight_fallback_only_witness :
  NoExact [recLow; recBBC303] /\ find isFallback [recLow; recBBC303] = Some recBBC303 /\
  recordsScanned [recLow; recBBC303] = 2%nat.
Proof.
  apply (selectTrackedFlight_fallback_only [recLow; recBBC303] recBBC303).
  - unfold selectTrackedFlight. rewrite scanStates_fallback.
    + simpl. rewrite excluded_not_fallback by apply recLow_excluded.
      rewrite recBBC303_fallback. reflexivity.
    + intros s [<- | [<- | []]].
      * apply excluded_not_exact, recLow_excluded.
      * apply recBBC303_not_exact.
  - reflexivity.
Defined.

(** X5: scanning a feed made of two parts is scanning the first part and
    then, unless the first part held an exact match, scanning the second
    part from the target the first part left. *)
Theorem scanStates_app (t : option State) (first second : list State) :
  fst (scanStates t (first ++ second)) =
  if existsb isExact first then fst (scanStates t first)
  else fst (scanStates (fst (scanStates t first)) second).
Proof.
  destruct (existsb isExact first) eqn:E.
  - apply existsb_exists in E.
    destruct (first_exact_split first E) as [pre [e [post [-> [Hpre He]]]]].
    rewrite <- app_assoc. simpl.
    rewrite !scanStates_first_exact by assumption. reflexivity.
  - apply NoExact_existsb in E.
    revert t. induction first as [|s rest IH]; intro t; [reflexivity|].
    apply NoExact_cons in E as [E1 E2]. simpl app.
    rewrite !scanStates_step by assumption. simpl.
    apply IH. exact E2.
Qed.

(** ** The poll cycle, continued *)

Lemma fetch_found now outcome c targetFlight :
  pollTarget outcome = Some targetFlight ->
  fetchFlightData now outcome c =
    {| flightData := buildFlightData targetFlight; loading := false;
       error := None; lastUpdate := Some now |}.
Proof.
  destruct outcome as [e | | [[|s states]|]]; simpl; try discriminate.
  intro H. rewrite (fetch_match _ _ _ _ _ H). reflexivity.
Qed.

Lemma fetch_not_found now outcome c :
  pollTarget outcome = None ->
  fetchFlightData now outcome c =
    {| flightData := flightData c; loading := false;
       error := Some (failureMessage outcome); lastUpdate := lastUpdate c |}.
Proof.
  destruct outcome as [[m|] | | [[|s states]|]]; simpl; try reflexivity.
  intro H. rewrite fetch_no_match by assumption. reflexivity.
Qed.

Lemma pollTarget_kind outcome targetFlight :
  pollTarget outcome = Some targetFlight ->
  cruiseCandidate targetFlight = true /\
  (isExact targetFlight = true \/ isFallback targetFlight = true).
Proof.
  destruct outcome as [e | | [states|]]; simpl; try discriminate.
  intro H. split; [apply (selected_is_candidate _ _ H)|].
  apply scanStates_result_kind in H as [H | [_ H]]; [discriminate | exact H].
Qed.

Lemma fetch_shape now outcome c :
  ReachableShape c -> ReachableShape (fetchFlightData now outcome c).
Proof.
  intro Hc. destruct (pollTarget outcome) as [t|] eqn:E.
  - rewrite (fetch_found _ _ _ _ E).
    destruct (pollTarget_kind _ _ E) as [H1 H2].
    right. exists t, now. simpl. auto.
  - rewrite (fetch_not_found _ _ _ E). exact Hc.
Qed.

Lemma runPolls_shape_from polls c :
  ReachableShape c -> ReachableShape (runPolls polls c).
Proof.
  revert c; induction polls as [|[now outcome] rest IH]; intros c Hc; [exact Hc|].
  simpl. apply IH, fetch_shape, Hc.
Qed.

Lemma runPolls_shape polls : ReachableShape (runPolls polls initialCells).
Proof. apply runPolls_shape_from. left. split; reflexivity. Qed.

(** A selected record has a callsign, and the state shows it trimmed. *)
Lemma selected_callsign targetFlight :
  isExact targetFlight = true \/ isFallback targetFlight = true ->
  callsignOf targetFlight <> "" /\
  displayCallsign (st_callsign targetFlight) = callsignOf targetFlight /\
  bannerCallsign (buildFlightData targetFlight) = callsignOf targetFlight.
Proof.
  intro H.
  assert (Hne : callsignOf targetFlight <> "").
  { intro E. unfold isExact, isFallback in H. rewrite E in H.
    change (exactCallsign "") with false in H.
    change (carrierCallsign "") with false in H.
    rewrite andb_false_r in H. destruct H; discriminate. }
  split; [exact Hne|].
  unfold callsignOf in *. unfold bannerCallsign, buildFlightData; simpl.
  destruct (st_callsign targetFlight) as [[|a s]|]; simpl in *;
    try (exfalso; apply Hne; reflexivity).
  destruct (JS.trim (String a s)) eqn:Et; [exfalso; apply Hne; reflexivity|].
  split; reflexivity.
Qed.

Lemma round_integer x : isInteger (JS.round x).
Proof. exists (Zfloor (x + / 2)). reflexivity. Qed.

Lemma round_error x : Rabs (JS.round x - x) <= / 2.
Proof.
  unfold JS.round. pose proof (Zfloor_bound (x + / 2)) as H.
  apply Rabs_le. lra.
Qed.

Lemma round_ge (z : Z) x : IZR z <= x -> IZR z <= JS.round x.
Proof.
  intro H. unfold JS.round. apply IZR_le, Zfloor_lub. lra.
Qed.

Lemma round_le (z : Z) x : x <= IZR z -> JS.round x <= IZR z.
Proof.
  intro H. unfold JS.round. apply IZR_le.
  assert (Zfloor (x + / 2) < z + 1)%Z; [|lia].
  apply lt_IZR. rewrite plus_IZR. pose proof (Zfloor_bound (x + / 2)). lra.
Qed.

(** X6: a poll that finds the flight rewrites all four cells from the
    selected record and the time alone; nothing of the previous state
    carries over, and the banner shows the trimmed callsign of the
    record. *)
Theorem poll_found_overwrites
  (now : Z) (outcome : FetchOutcome) (targetFlight : State) (c c' : Cells) :
  pollTarget outcome = Some targetFlight ->
  fetchFlightData now outcome c =
    {| flightData := buildFlightData targetFlight; loading := false;
       error := None; lastUpdate := Some now |} /\
  fetchFlightData now outcome c = fetchFlightData now outcome c' /\
  statusBanner (fetchFlightData now outcome c) =
    BannerSummary (callsignOf targetFlight)
                  (calculateETA (buildFlightData targetFlight))
                  (progressPercent (buildFlightData targetFlight)).
Proof.
  intro H. rewrite !(fetch_found _ _ _ _ H).
  split; [reflexivity|]. split; [reflexivity|].
  unfold statusBanner; simpl.
  destruct (selected_callsign targetFlight (proj2 (pollTarget_kind _ _ H)))
    as [_ [_ ->]].
  reflexivity.
Qed.

Lemma poll_found_overwrites_witness :
  fetchFlightData 7 (Payload (Some [recBBC777; recBG202])) initialCells =
    {| flightData := buildFlightData recBG202; loading := false;
       error := None; lastUpdate := Some 7%Z |}.
Proof.
  apply (poll_found_overwrites 7 (Payload (Some [recBBC777; recBG202])) recBG202
           initialCells initialCells).
  simpl. unfold selectTrackedFlight.
  change [recBBC777; recBG202] with ([recBBC777] ++ recBG202 :: []).
  rewrite (scanStates_first_exact None [recBBC777] recBG202 []).
  - reflexivity.
  - intros s [<- | []]. apply recBBC777_not_exact.
  - apply recBG202_exact.
Defined.

(** X7: a poll that finds no flight, whatever the reason, leaves
    [flightData] and [lastUpdate] as they were, ends the loading state and
    stores a message: the thrown error's own, "Unknown error occurred",
    "Failed to fetch flight data", the no-states text or the no-match
    text. *)
Theorem poll_failed_keeps_flight_data
  (now : Z) (outcome : FetchOutcome) (c : Cells) :
  pollTarget outcome = None ->
  flightData (fetchFlightData now outcome c) = flightData c /\
  lastUpdate (fetchFlightData now outcome c) = lastUpdate c /\
  loading (fetchFlightData now outcome c) = false /\
  error (fetchFlightData now outcome c) = Some (failureMessage outcome).
Proof.
  intro H. rewrite (fetch_not_found _ _ _ H). repeat split.
Qed.

Lemma poll_failed_keeps_flight_data_witness :
  flightData (fetchFlightData 9 (Payload (Some [recGround; recLow])) initialCells)
    = initialFlightData /\
  lastUpdate (fetchFlightData 9 (Payload (Some [recGround; recLow])) initialCells)
    = None /\
  loading (fetchFlightData 9 (Payload (Some [recGround; recLow])) initialCells)
    = false /\
  error (fetchFlightData 9 (Payload (Some [recGround; recLow])) initialCells)
    = Some msgNoMatch.
Proof.
  apply (poll_failed_keeps_flight_data 9 (Payload (Some [recGround; recLow]))
           initialCells).
  simpl. unfold selectTrackedFlight. rewrite scanStates_fallback.
  - simpl. rewrite !excluded_not_fallback
      by (apply recGround_excluded || apply recLow_excluded).
    reflexivity.
  - intros s [<- | [<- | []]]; apply excluded_not_exact;
      [apply recGround_excluded | apply recLow_excluded].
Defined.

Lemma fetch_loading now outcome c : loading (fetchFlightData now outcome c) = false.
Proof.
  destruct (pollTarget outcome) as [t|] eqn:E.
  - rewrite (fetch_found _ _ _ _ E). reflexivity.
  - rewrite (fetch_not_found _ _ _ E). reflexivity.
Qed.

Lemma fetch_isLive now outcome c :
  isLive (flightData c) = true ->
  isLive (flightData (fetchFlightData now outcome c)) = true.
Proof.
  intro H. destruct (pollTarget outcome) as [t|] eqn:E.
  - rewrite (fetch_found _ _ _ _ E). reflexivity.
  - rewrite (fetch_not_found _ _ _ E). exact H.
Qed.

(** X8: once the first poll has returned, whatever its outcome, the
    loading state is over and no later poll brings it back. *)
Theorem loading_ends_with_first_poll
  (polls : list (Z * FetchOutcome)) (c : Cells) :
  polls <> [] -> loading (runPolls polls c) = false.
Proof.
  destruct polls as [|[now outcome] rest]; [congruence|]. intros _. simpl.
  generalize (fetch_loading now outcome c).
  generalize (fetchFlightData now outcome c) as c0.
  induction rest as [|[now' outcome'] rest IH]; intros c0 H; [exact H|].
  simpl. apply IH, fetch_loading.
Qed.

Lemma loading_ends_with_first_poll_witness :
  loading (runPolls [(1%Z, StatusNotOk); (2%Z, Throws OtherValue)] initialCells)
  = false.
Proof.
  apply (loading_ends_with_first_poll
           [(1%Z, StatusNotOk); (2%Z, Throws OtherValue)] initialCells).
  discriminate.
Defined.

(** X9: no poll ever clears [isLive]: once a poll has found the flight,
    the live flag stays set through every later poll, failed ones
    included. *)
Theorem isLive_never_cleared (polls : list (Z * FetchOutcome)) (c : Cells) :
  isLive (flightData c) = true ->
  isLive (flightData (runPolls polls c)) = true.
Proof.
  revert c; induction polls as [|[now outcome] rest IH]; intros c H; [exact H|].
  simpl. apply IH, fetch_isLive, H.
Qed.

Lemma isLive_never_cleared_witness :
  isLive (flightData
    (runPolls [(2%Z, StatusNotOk); (3%Z, Payload (Some [recGround]))]
       (fetchFlightData 1 (Payload (Some [recNorthOfDhaka])) initialCells)))
  = true.
Proof.
  apply (isLive_never_cleared [(2%Z, StatusNotOk); (3%Z, Payload (Some [recGround]))]).
  rewrite (fetch_found 1 _ _ recNorthOfDhaka); [reflexivity|].
  simpl. unfold selectTrackedFlight.
  rewrite scanStates_exact by apply recNorthOfDhaka_exact. reflexivity.
Defined.

(** ** What every state of a run satisfies *)

Lemma truthy_toNumber (v : option R) :
  JS.truthy v = true -> v = Some (JS.toNumber v) /\ JS.toNumber v <> 0.
Proof.
  destruct v as [x|]; simpl; [|discriminate].
  intro H. apply numTruthy_iff in H. auto.
Qed.

Lemma live_poll_north_of_dhaka :
  isLive (flightData
    (runPolls [(0%Z, Payload (Some [recNorthOfDhaka]))] initialCells)) = true.
Proof. exact isLive_reachable. Qed.

Lemma recAt6050_exact : isExact recAt6050 = true.
Proof.
  unfold isExact. replace (exactCallsign (callsignOf recAt6050)) with true by reflexivity.
  rewrite andb_true_r. guard_eval.
Qed.

Lemma poll_recAt6050 :
  runPolls [(0%Z, Payload (Some [recAt6050]))] initialCells =
    {| flightData := buildFlightData recAt6050; loading := false;
       error := None; lastUpdate := Some 0%Z |}.
Proof.
  simpl runPolls. apply fetch_found. simpl. unfold selectTrackedFlight.
  rewrite scanStates_exact by apply recAt6050_exact. reflexivity.
Qed.

(** X10: in every state of every run, [isLive] is set exactly when both
    coordinates are present and not zero, exactly when the map is given a
    plane position, and exactly when a last-update time is recorded. *)
Theorem live_iff_position (polls : list (Z * FetchOutcome)) :
  let c := runPolls polls initialCells in
  (isLive (flightData c) = true <->
   JS.truthy (currentLat (flightData c)) = true /\
   JS.truthy (currentLon (flightData c)) = true) /\
  (isLive (flightData c) = true <-> planePosition (flightData c) <> None) /\
  (isLive (flightData c) = true <-> lastUpdate c <> None).
Proof.
  intro c. unfold planePosition.
  destruct (runPolls_shape polls) as [[Hfd Hlu] | [t [now [Hc [_ [Hfd Hlu]]]]]];
    fold c in Hfd, Hlu; rewrite Hfd, Hlu.
  - simpl. repeat split; intros; try discriminate; try tauto;
      try (destruct H; discriminate).
  - destruct (candidate_has_position t Hc) as [Hla Hlo].
    simpl. rewrite Hla, Hlo. simpl.
    repeat split; intros; try reflexivity; discriminate.
Qed.

(** X11: in every live state of every run the altitude shown is a whole
    number of feet, at least 19685 (6000 m, the threshold of the guard). *)
Theorem live_altitude_at_least_19685 (polls : list (Z * FetchOutcome)) :
  isLive (flightData (runPolls polls initialCells)) = true ->
  isInteger (altitude (flightData (runPolls polls initialCells))) /\
  19685 <= altitude (flightData (runPolls polls initialCells)).
Proof.
  destruct (runPolls_shape polls) as [[Hfd _] | [t [now [Hc [_ [Hfd _]]]]]];
    rewrite Hfd; [discriminate|]. intros _. simpl.
  apply cruiseCandidate_iff in Hc as [_ [_ [_ [alt [Halt Hgt]]]]].
  rewrite Halt. unfold altitudeFeetOf, JS.truthy, JS.toNumber.
  rewrite numTruthy_true by lra.
  split; [apply round_integer|].
  apply (round_ge 19685). lra.
Qed.

(** A live state below the 20,000 feet of the comment of line 147: at
    6050 m the guard lets the record through and the state shows 19849 ft. *)
Lemma live_altitude_at_least_19685_witness :
  isInteger (altitude (flightData
    (runPolls [(0%Z, Payload (Some [recAt6050]))] initialCells))) /\
  19685 <= altitude (flightData
    (runPolls [(0%Z, Payload (Some [recAt6050]))] initialCells)).
Proof.
  apply (live_altitude_at_least_19685 [(0%Z, Payload (Some [recAt6050]))]).
  rewrite poll_recAt6050. reflexivity.
Defined.

Lemma live_altitude_19849 :
  altitude (flightData
    (runPolls [(0%Z, Payload (Some [recAt6050]))] initialCells)) = 19849.
Proof.
  rewrite poll_recAt6050. simpl.
  unfold altitudeFeetOf, JS.truthy, JS.toNumber. js_num.
  apply (round_eq 19849). lra.
Qed.

Lemma recNoGroundFlag_exact : isExact recNoGroundFlag = true.
Proof.
  unfold isExact.
  replace (exactCallsign (callsignOf recNoGroundFlag)) with true by reflexivity.
  rewrite andb_true_r. guard_eval.
Qed.

Lemma poll_recNoGroundFlag :
  runPolls [(0%Z, Payload (Some [recNoGroundFlag]))] initialCells =
    {| flightData := buildFlightData recNoGroundFlag; loading := false;
       error := None; lastUpdate := Some 0%Z |}.
Proof.
  simpl runPolls. apply fetch_found. simpl. unfold selectTrackedFlight.
  rewrite scanStates_exact by apply recNoGroundFlag_exact. reflexivity.
Qed.



(** A live state whose [onGround] is missing: the record had no on-ground
    field, the guard let it through and line 212 stored the field as it
    came. *)
Lemma live_onGround_missing :
  isLive (flightData
    (runPolls [(0%Z, Payload (Some [recNoGroundFlag]))] initialCells)) = true /\
  onGround (flightData
    (runPolls [(0%Z, Payload (Some [recNoGroundFlag]))] initialCells)) = None.
Proof. rewrite poll_recNoGroundFlag. split; reflexivity. Qed.

(** X13: in every live state of every run the region shown is the bucket
    of the current longitude, one of the eight region names; it is never
    "Unknown" and never the initial "Searching...". *)
Theorem live_region_is_bucket (polls : list (Z * FetchOutcome)) :
  isLive (flightData (runPolls polls initialCells)) = true ->
  exists lo,
    currentLon (flightData (runPolls polls initialCells)) = Some lo /\
    currentRegion (flightData (runPolls polls initialCells)) =
      lookupRegion regionThresholds "Bangladesh" lo /\
    In (currentRegion (flightData (runPolls polls initialCells)))
       (map snd regionThresholds ++ ["Bangladesh"]).
Proof.
  destruct (runPolls_shape polls) as [[Hfd _] | [t [now [Hc [_ [Hfd _]]]]]];
    rewrite Hfd; [discriminate|]. intros _.
  destruct (candidate_has_position t Hc) as [Hla Hlo].
  apply truthy_toNumber in Hla as [Ela Hla0]. apply truthy_toNumber in Hlo as [Elo Hlo0].
  exists (JS.toNumber (st_lon t)). simpl.
  split; [exact Elo|].
  rewrite getCurrentRegion_buckets by assumption.
  split; [reflexivity|].
  generalize (JS.toNumber (st_lon t)) as x. intro x. simpl.
  repeat (destruct (JS.ltb x _); [tauto|]). tauto.
Qed.

Lemma live_region_is_bucket_witness :
  exists lo,
    currentLon (flightData
      (runPolls [(0%Z, Payload (Some [recNorthOfDhaka]))] initialCells)) = Some lo /\
    currentRegion (flightData
      (runPolls [(0%Z, Payload (Some [recNorthOfDhaka]))] initialCells)) =
      lookupRegion regionThresholds "Bangladesh" lo /\
    In (currentRegion (flightData
          (runPolls [(0%Z, Payload (Some [recNorthOfDhaka]))] initialCells)))
       (map snd regionThresholds ++ ["Bangladesh"]).
Proof.
  apply (live_region_is_bucket [(0%Z, Payload (Some [recNorthOfDhaka]))]).
  exact live_poll_north_of_dhaka.
Defined.

(** ** The banner *)

(** X15: after a poll the banner never shows the spinner.  When the poll
    found no flight and left a message that is not empty, the banner is
    the warning made of that message and the suffix; when the message is
    empty (an error thrown with an empty message) the banner shows the
    summary of the old flight data as if the poll had succeeded. *)
Theorem statusBanner_after_failed_poll
  (now : Z) (outcome : FetchOutcome) (c : Cells) :
  pollTarget outcome = None ->
  statusBanner (fetchFlightData now outcome c) <> BannerSearching /\
  (failureMessage outcome <> "" ->
   statusBanner (fetchFlightData now outcome c) =
     BannerWarning (String.append (failureMessage outcome)
                                  " - Using simulated data for demonstration")) /\
  (failureMessage outcome = "" ->
   statusBanner (fetchFlightData now outcome c) =
     BannerSummary (bannerCallsign (flightData c))
                   (calculateETA (flightData c))
                   (progressPercent (flightData c))).
Proof.
  intro H. rewrite (fetch_not_found _ _ _ H).
  unfold statusBanner; simpl.
  destruct (failureMessage outcome) as [|a m]; simpl.
  - split; [discriminate|]. split; [intro Habs; congruence | reflexivity].
  - split; [discriminate|]. split; [reflexivity | discriminate].
Qed.

Lemma statusBanner_after_failed_poll_witness :
  statusBanner (fetchFlightData 0 StatusNotOk initialCells) =
    BannerWarning "Failed to fetch flight data - Using simulated data for demonstration"
  /\
  statusBanner (fetchFlightData 0 (Throws (ErrorObject "")) initialCells) =
    BannerSummary "Biman Bangladesh" {| hours := 0; minutes := 0 |}
                  (progressPercent initialFlightData).
Proof.
  split.
  - apply (statusBanner_after_failed_poll 0 StatusNotOk initialCells).
    + reflexivity.
    + discriminate.
  - reflexivity.
Defined.

(** ** Units and ETA, continued *)

(** X16: the altitude in feet and the speed in mph are whole numbers
    within half a unit of the exact conversion (by 3.28084 and by
    2.23694); a missing or zero reading gives 0, and a reading that is
    not negative gives a value that is not negative. *)
Theorem unit_conversions_rounded (v : option R) :
  isInteger (altitudeFeetOf v) /\
  Rabs (altitudeFeetOf v - JS.toNumber v * 3.28084) <= / 2 /\
  isInteger (speedMphOf v) /\
  Rabs (speedMphOf v - JS.toNumber v * 2.23694) <= / 2 /\
  (JS.truthy v = false -> altitudeFeetOf v = 0 /\ speedMphOf v = 0) /\
  (0 <= JS.toNumber v -> 0 <= altitudeFeetOf v /\ 0 <= speedMphOf v).
Proof.
  unfold altitudeFeetOf, speedMphOf.
  destruct (JS.truthy v) eqn:E.
  - repeat split; try apply round_integer; try apply round_error; try discriminate;
      apply (round_ge 0); nra.
  - assert (Hz : JS.toNumber v = 0).
    { destruct v as [x|]; [|reflexivity]. simpl in *.
      unfold JS.numTruthy in E. destruct (Req_dec_T x 0); [assumption | discriminate]. }
    rewrite Hz, !Rmult_0_l, Rminus_0_r, Rabs_R0.
    repeat split; try (exists 0%Z; reflexivity); lra.
Qed.

Lemma calculateDistance_same lat1 lon1 : calculateDistance lat1 lon1 lat1 lon1 = 0.
Proof.
  unfold calculateDistance. rewrite haversineA_same.
  rewrite Rminus_0_r, sqrt_0, sqrt_1.
  unfold JS.atan2. destruct (Rlt_dec 0 1); [|lra].
  unfold Rdiv. rewrite Rmult_0_l, atan_0. ring.
Qed.

Lemma round_0 : JS.round 0 = 0.
Proof. apply (round_eq 0). lra. Qed.

Lemma floor_0 : JS.floor 0 = 0.
Proof. apply (floor_eq 0). lra. Qed.

(** The non-trivial branch of [calculateETA]. *)
Lemma calculateETA_known (fd : FlightData) :
  JS.truthy (currentLat fd) = true -> speed fd <> 0 ->
  calculateETA fd =
    let h := calculateDistance (JS.toNumber (currentLat fd))
                               (JS.toNumber (currentLon fd))
                               (Geo.lat arrival) (Geo.lon arrival)
             / (speed fd * 1.60934) in
    {| hours := JS.floor h; minutes := JS.round ((h - JS.floor h) * 60) |}.
Proof.
  intros Hlat Hs. unfold calculateETA.
  rewrite Hlat, (numTruthy_true (speed fd)) by assumption.
  destruct (Req_dec_T (speed fd) 0); [contradiction | reflexivity].
Qed.

(** X17: [calculateETA] answers 0 h 0 m when the latitude is missing or
    zero, when the speed is zero, and also when the plane is at the
    arrival point: the answer for an unknown ETA and for an arrived plane
    is the same. *)
Theorem calculateETA_zero (fd : FlightData) :
  JS.truthy (currentLat fd) = false \/ speed fd = 0 \/
  (currentLat fd = Some (Geo.lat arrival) /\
   currentLon fd = Some (Geo.lon arrival)) ->
  calculateETA fd = {| hours := 0; minutes := 0 |}.
Proof.
  intros [H | [H | [Hla Hlo]]].
  - unfold calculateETA. rewrite H. reflexivity.
  - unfold calculateETA. rewrite H, (numTruthy_false 0) by reflexivity.
    rewrite orb_true_r. reflexivity.
  - destruct (Req_dec_T (speed fd) 0) as [Hs | Hs].
    + unfold calculateETA. rewrite Hs, (numTruthy_false 0) by reflexivity.
      rewrite orb_true_r. reflexivity.
    + rewrite calculateETA_known.
      * rewrite Hla, Hlo. simpl JS.toNumber. rewrite calculateDistance_same.
        cbv zeta.
        replace (0 / (speed fd * 1.60934)) with 0 by (unfold Rdiv; ring).
        rewrite floor_0.
        replace ((0 - 0) * 60) with 0 by ring. rewrite round_0. reflexivity.
      * rewrite Hla. unfold arrival; simpl. apply numTruthy_true. lra.
      * exact Hs.
Qed.

Lemma calculateETA_zero_witness :
  calculateETA initialFlightData = {| hours := 0; minutes := 0 |}.
Proof.
  apply (calculateETA_zero initialFlightData). left. reflexivity.
Defined.

(** X18: with a position and a speed that is not zero, the hours are the
    floor of the remaining hours and hours times 60 plus minutes is the
    remaining time in minutes rounded to the nearest whole minute. *)
Theorem calculateETA_total_minutes (fd : FlightData) :
  JS.truthy (currentLat fd) = true -> speed fd <> 0 ->
  let h := calculateDistance (JS.toNumber (currentLat fd))
                             (JS.toNumber (currentLon fd))
                             (Geo.lat arrival) (Geo.lon arrival)
           / (speed fd * 1.60934) in
  hours (calculateETA fd) = JS.floor h /\
  hours (calculateETA fd) * 60 + minutes (calculateETA fd) = JS.round (h * 60).
Proof.
  intros Hlat Hs h. rewrite calculateETA_known by assumption. fold h. simpl.
  split; [reflexivity|].
  unfold JS.floor, JS.round.
  replace ((h - IZR (Zfloor h)) * 60 + / 2)
    with ((h * 60 + / 2) + IZR (- (60 * Zfloor h)))
    by (rewrite opp_IZR, mult_IZR; ring).
  rewrite Zfloor_addz, plus_IZR, opp_IZR, mult_IZR. ring.
Qed.

Lemma calculateETA_total_minutes_witness :
  let fd := buildFlightData recNorthOfDhaka in
  let h := calculateDistance (JS.toNumber (currentLat fd))
                             (JS.toNumber (currentLon fd))
                             (Geo.lat arrival) (Geo.lon arrival)
           / (speed fd * 1.60934) in
  hours (calculateETA fd) = JS.floor h /\
  hours (calculateETA fd) * 60 + minutes (calculateETA fd) = JS.round (h * 60).
Proof.
  apply (calculateETA_total_minutes (buildFlightData recNorthOfDhaka)).
  - simpl. apply numTruthy_true. lra.
  - change (speed (buildFlightData recNorthOfDhaka)) with (speedMphOf (Some 223.5)).
    rewrite speedMphOf_223_5. lra.
Defined.

(** ** The haversine formula and the central angle *)

Lemma atan2_quadrant y x : 0 <= y -> 0 <= x -> 0 <= JS.atan2 y x <= PI / 2.
Proof.
  intros Hy Hx. split; [apply atan2_nonneg; assumption|].
  unfold JS.atan2. pose proof PI_RGT_0 as Hpi.
  destruct (Rlt_dec 0 x).
  - pose proof (atan_bound (y / x)). lra.
  - destruct (Rlt_dec x 0); [lra|].
    destruct (Rlt_dec 0 y); [lra|].
    destruct (Rlt_dec y 0); lra.
Qed.

(** [atan2] of a point of the unit circle in the first quadrant is its
    angle. *)
Lemma atan2_unit y x :
  0 <= y -> 0 <= x -> x * x + y * y = 1 ->
  sin (JS.atan2 y x) = y /\ cos (JS.atan2 y x) = x.
Proof.
  intros Hy Hx H1. unfold JS.atan2.
  destruct (Rlt_dec 0 x) as [Hx0 | Hx0].
  - rewrite sin_atan, cos_atan.
    assert (E : 1 + Rsqr (y / x) = / (x * x)).
    { unfold Rsqr. transitivity ((x * x + y * y) / (x * x)).
      - field. lra.
      - rewrite H1. field. lra. }
    rewrite E, sqrt_inv, sqrt_square by lra.
    split; field; lra.
  - assert (x = 0) by lra. subst x.
    destruct (Rlt_dec 0 0); [lra|].
    assert (y = 1) by nra. subst y.
    destruct (Rlt_dec 0 1); [|lra].
    rewrite sin_PI2, cos_PI2. split; reflexivity.
Qed.

Lemma sin_half_sqr u : sin (u / 2) * sin (u / 2) = (1 - cos u) / 2.
Proof.
  pose proof (cos_2a_sin (u / 2)) as H.
  replace (2 * (u / 2)) with u in H by field. lra.
Qed.

(** The haversine of the central angle. *)
Lemma haversineA_central lat1 lon1 lat2 lon2 :
  1 - 2 * haversineA lat1 lon1 lat2 lon2 = centralAngleCos lat1 lon1 lat2 lon2.
Proof.
  unfold haversineA, centralAngleCos.
  rewrite !sin_half_sqr.
  replace (cos (lat1 * PI / 180) * cos (lat2 * PI / 180) *
           sin ((lon2 - lon1) * PI / 180 / 2) * sin ((lon2 - lon1) * PI / 180 / 2))
    with (cos (lat1 * PI / 180) * cos (lat2 * PI / 180) *
          (sin ((lon2 - lon1) * PI / 180 / 2) * sin ((lon2 - lon1) * PI / 180 / 2)))
    by ring.
  rewrite sin_half_sqr.
  replace ((lat2 - lat1) * PI / 180) with (lat2 * PI / 180 - lat1 * PI / 180) by field.
  rewrite cos_minus. field.
Qed.

Lemma calculateDistance_angle lat1 lon1 lat2 lon2 :
  0 <= calculateDistance lat1 lon1 lat2 lon2 / 6371 <= PI /\
  cos (calculateDistance lat1 lon1 lat2 lon2 / 6371) =
    centralAngleCos lat1 lon1 lat2 lon2.
Proof.
  rewrite <- haversineA_central.
  unfold calculateDistance.
  pose proof (haversineA_range lat1 lon1 lat2 lon2) as [Ha0 Ha1].
  set (a := haversineA lat1 lon1 lat2 lon2) in *.
  set (al := JS.atan2 (sqrt a) (sqrt (1 - a))).
  replace (6371 * (2 * al) / 6371) with (2 * al) by field.
  pose proof (atan2_quadrant (sqrt a) (sqrt (1 - a)) (sqrt_pos _) (sqrt_pos _)) as Hq.
  fold al in Hq.
  split; [lra|].
  rewrite cos_2a_sin.
  destruct (atan2_unit (sqrt a) (sqrt (1 - a)) (sqrt_pos _) (sqrt_pos _)) as [Hs _].
  { rewrite !sqrt_sqrt by lra. ring. }
  fold al in Hs. rewrite Rmult_assoc, Hs, sqrt_sqrt by lra. reflexivity.
Qed.


Lemma calculateDistance_of_angle lat1 lon1 lat2 lon2 theta :
  0 <= theta <= PI ->
  centralAngleCos lat1 lon1 lat2 lon2 = cos theta ->
  calculateDistance lat1 lon1 lat2 lon2 = 6371 * theta.
Proof.
  intros Ht H.
  destruct (calculateDistance_angle lat1 lon1 lat2 lon2) as [R1 C1].
  assert (E : calculateDistance lat1 lon1 lat2 lon2 / 6371 = theta).
  { apply cos_inj; try assumption. congruence. }
  lra.
Qed.

(** X21: between two points of one meridian whose latitudes differ by at
    most 180 degrees the distance is the arc: 6371 km times the latitude
    difference in radians. *)
Theorem calculateDistance_meridian (lat1 lat2 lon : R) :
  Rabs (lat2 - lat1) <= 180 ->
  calculateDistance lat1 lon lat2 lon = 6371 * (Rabs (lat2 - lat1) * PI / 180).
Proof.
  intro H. pose proof PI_RGT_0 as Hpi.
  apply calculateDistance_of_angle.
  - pose proof (Rabs_pos (lat2 - lat1)). split.
    + apply Rmult_le_pos; [apply Rmult_le_pos|]; lra.
    + replace PI with (180 * PI / 180) at 2 by field.
      apply Rmult_le_compat_r; [lra|]. apply Rmult_le_compat_r; lra.
  - unfold centralAngleCos.
    replace ((lon - lon) * PI / 180) with 0 by field.
    rewrite cos_0, Rmult_1_r.
    replace (sin (lat1 * PI / 180) * sin (lat2 * PI / 180) +
             cos (lat1 * PI / 180) * cos (lat2 * PI / 180))
      with (cos (lat2 * PI / 180 - lat1 * PI / 180))
      by (rewrite cos_minus; ring).
    destruct (Rle_dec 0 (lat2 - lat1)) as [Hd | Hd].
    + rewrite Rabs_pos_eq by assumption. f_equal. field.
    + rewrite Rabs_left by lra. rewrite <- cos_neg. f_equal. field.
Qed.

Lemma calculateDistance_meridian_witness :
  calculateDistance 31.0183 90.4125 23.8103 90.4125 =
  6371 * (Rabs (23.8103 - 31.0183) * PI / 180).
Proof.
  apply (calculateDistance_meridian 31.0183 23.8103 90.4125).
  rewrite Rabs_left by lra. lra.
Defined.


(** X24: the progress is 0 at the departure point and 1 at the arrival
    point; it is the distance from the departure point over the length of
    the route while that is below 1, and it is 1 exactly when the plane is
    at least as far from the departure point as the arrival point is. *)
Theorem progressOf_saturates (lat lon : R) :
  let total := calculateDistance (Geo.lat departure) (Geo.lon departure)
                                 (Geo.lat arrival) (Geo.lon arrival) in
  let d := calculateDistance (Geo.lat departure) (Geo.lon departure) lat lon in
  progressOf (Geo.lat departure) (Geo.lon departure) = 0 /\
  progressOf (Geo.lat arrival) (Geo.lon arrival) = 1 /\
  (progressOf lat lon = 1 <-> total <= d) /\
  (d < total -> progressOf lat lon = d / total).
Proof.
  intros total d. pose proof totalDistance_pos as Ht. fold total in Ht.
  assert (Hq : forall x, x / total < 1 <-> x < total).
  { intro x. split; intro H.
    - apply (Rmult_lt_compat_r total) in H; [|exact Ht].
      unfold Rdiv in H. rewrite Rmult_assoc, Rinv_l, Rmult_1_r, Rmult_1_l in H; lra.
    - apply (Rmult_lt_reg_r total); [exact Ht|].
      unfold Rdiv. rewrite Rmult_assoc, Rinv_l, Rmult_1_r, Rmult_1_l; lra. }
  unfold progressOf. fold total. fold d.
  split; [|split; [|split]].
  - rewrite calculateDistance_same. unfold Rdiv. rewrite Rmult_0_l.
    apply Rmin_left. lra.
  - fold total. unfold Rdiv. rewrite Rinv_r by lra. apply Rmin_left. lra.
  - split; intro H.
    + destruct (Rlt_dec d total) as [Hlt | Hge]; [|lra].
      apply Hq in Hlt. rewrite Rmin_left in H by lra. lra.
    + apply Rmin_right. destruct (Rlt_dec (d / total) 1) as [Hlt | Hge]; [|lra].
      apply Hq in Hlt. lra.
  - intro H. apply Hq in H. apply Rmin_left. lra.
Qed.

(** ** The projection *)

Lemma fold_left_Rmin_spec rest x :
  (fold_left Rmin rest x = x \/ In (fold_left Rmin rest x) rest) /\
  fold_left Rmin rest x <= x /\
  (forall y, In y rest -> fold_left Rmin rest x <= y).
Proof.
  revert x; induction rest as [|z rest IH]; intro x; simpl.
  - split; [left; reflexivity|]. split; [lra | intros y []].
  - destruct (IH (Rmin x z)) as [H1 [H2 H3]].
    pose proof (Rmin_l x z). pose proof (Rmin_r x z).
    split; [|split].
    + destruct H1 as [H1 | H1]; [|right; right; exact H1].
      rewrite H1. unfold Rmin. destruct (Rle_dec x z); [left | right; left]; reflexivity.
    + lra.
    + intros y [<- | Hy]; [lra | apply H3, Hy].
Qed.

Lemma fold_left_Rmax_spec rest x :
  (fold_left Rmax rest x = x \/ In (fold_left Rmax rest x) rest) /\
  x <= fold_left Rmax rest x /\
  (forall y, In y rest -> y <= fold_left Rmax rest x).
Proof.
  revert x; induction rest as [|z rest IH]; intro x; simpl.
  - split; [left; reflexivity|]. split; [lra | intros y []].
  - destruct (IH (Rmax x z)) as [H1 [H2 H3]].
    pose proof (Rmax_l x z). pose proof (Rmax_r x z).
    split; [|split].
    + destruct H1 as [H1 | H1]; [|right; right; exact H1].
      rewrite H1. unfold Rmax. destruct (Rle_dec x z); [right; left | left]; reflexivity.
    + lra.
    + intros y [<- | Hy]; [lra | apply H3, Hy].
Qed.

(** The spread minimum and maximum of a list bound every entry and are
    entries themselves. *)
Lemma spread_bounds xs x :
  In x xs ->
  spreadMin xs <= x <= spreadMax xs /\ In (spreadMin xs) xs /\ In (spreadMax xs) xs.
Proof.
  destruct xs as [|a rest]; [intros []|]. intro Hx. unfold spreadMin, spreadMax.
  destruct (fold_left_Rmin_spec rest a) as [M1 [M2 M3]].
  destruct (fold_left_Rmax_spec rest a) as [X1 [X2 X3]].
  split; [|split].
  - destruct Hx as [<- | Hx]; [lra|]. split; [apply M3 | apply X3]; exact Hx.
  - destruct M1 as [-> | M1]; [left; reflexivity | right; exact M1].
  - destruct X1 as [-> | X1]; [left; reflexivity | right; exact X1].
Qed.

Ltac pick_bound H :=
  cbn [map wp_lon wp_lat waypoints In] in H;
  repeat (destruct H as [H | H]; [lra|]); try contradiction.

Lemma map_bounds :
  minLon = -5.4543 /\ maxLon = 95.4125 /\ minLat = 17.6 /\ maxLat = 56.47.
Proof.
  unfold minLon, maxLon, minLat, maxLat.
  assert (L0 : In (-0.4543) (map wp_lon waypoints)) by (left; reflexivity).
  assert (L1 : In 90.4125 (map wp_lon waypoints)) by (do 13 right; left; reflexivity).
  assert (A0 : In 22.6 (map wp_lat waypoints)) by (do 12 right; left; reflexivity).
  assert (A1 : In 51.47 (map wp_lat waypoints)) by (left; reflexivity).
  destruct (spread_bounds _ _ L0) as [[Ha _] [Hb _]].
  destruct (spread_bounds _ _ L1) as [[_ Hc] [_ Hd]].
  destruct (spread_bounds _ _ A0) as [[He _] [Hf _]].
  destruct (spread_bounds _ _ A1) as [[_ Hg] [_ Hh]].
  set (m1 := spreadMin (map wp_lon waypoints)) in *.
  set (m2 := spreadMax (map wp_lon waypoints)) in *.
  set (m3 := spreadMin (map wp_lat waypoints)) in *.
  set (m4 := spreadMax (map wp_lat waypoints)) in *.
  assert (m1 = -0.4543) by (unfold waypoints in Hb; pick_bound Hb).
  assert (m2 = 90.4125) by (unfold waypoints in Hd; pick_bound Hd).
  assert (m3 = 22.6) by (unfold waypoints in Hf; pick_bound Hf).
  assert (m4 = 51.47) by (unfold waypoints in Hh; pick_bound Hh).
  repeat split; lra.
Qed.

Lemma projectX_formula lon : projectX lon = (lon + 5.4543) / 100.8668 * 840 + 80.
Proof.
  unfold projectX, lonRange, mapWidth, padding.
  destruct map_bounds as [-> [-> _]]. lra.
Qed.

Lemma projectY_formula lat : projectY lat = 500 - (lat - 17.6) / 38.87 * 340 - 80.
Proof.
  unfold projectY, latRange, mapHeight, padding.
  destruct map_bounds as [_ [_ [-> ->]]]. lra.
Qed.

(** X25: every position inside the bounding box of the request (latitude
    20 to 55, longitude -5 to 95) is projected strictly inside the padded
    canvas: x between 80 and 920, y between 80 and 420. *)
Theorem projection_inside_canvas (lat lon : R) :
  lamin <= lat <= lamax -> lomin <= lon <= lomax ->
  padding < projectX lon < mapWidth - padding /\
  padding < projectY lat < mapHeight - padding.
Proof.
  unfold lamin, lamax, lomin, lomax, padding, mapWidth, mapHeight.
  intros Hlat Hlon. rewrite projectX_formula, projectY_formula. lra.
Qed.

Lemma projection_inside_canvas_witness :
  padding < projectX 90.4125 < mapWidth - padding /\
  padding < projectY 31.0183 < mapHeight - padding.
Proof.
  apply (projection_inside_canvas 31.0183 90.4125);
    unfold lamin, lamax, lomin, lomax; lra.
Defined.

(** X26: the bounds are the extreme waypoints widened by 5 degrees
    (longitude -5.4543 to 95.4125, latitude 17.6 to 56.47); [projectX]
    sends them to the left and right padding lines and grows with the
    longitude, [projectY] sends the northern bound to the top padding
    line, the southern one to the bottom line and falls as the latitude
    grows. *)
Theorem projection_affine (a b : R) :
  projectX minLon = padding /\
  projectX maxLon = mapWidth - padding /\
  projectY maxLat = padding /\
  projectY minLat = mapHeight - padding /\
  (projectX a < projectX b <-> a < b) /\
  (projectY a < projectY b <-> b < a).
Proof.
  rewrite !projectX_formula, !projectY_formula.
  destruct map_bounds as [-> [-> [-> ->]]].
  unfold padding, mapWidth, mapHeight.
  repeat split; intros; lra.
Qed.

(** X27: every waypoint of the route is drawn strictly inside the padded
    canvas. *)
Theorem waypoints_inside_canvas (w : Waypoint) :
  In w waypoints ->
  padding < projectX (wp_lon w) < mapWidth - padding /\
  padding < projectY (wp_lat w) < mapHeight - padding.
Proof.
  intro Hw.
  destruct (spread_bounds (map wp_lon waypoints) (wp_lon w) (in_map _ _ _ Hw))
    as [Hlon _].
  destruct (spread_bounds (map wp_lat waypoints) (wp_lat w) (in_map _ _ _ Hw))
    as [Hlat _].
  pose proof map_bounds as [E1 [E2 [E3 E4]]].
  unfold minLon, maxLon, minLat, maxLat in E1, E2, E3, E4.
  rewrite projectX_formula, projectY_formula.
  unfold padding, mapWidth, mapHeight. lra.
Qed.

Lemma waypoints_inside_canvas_witness :
  padding < projectX 90.4125 < mapWidth - padding /\
  padding < projectY 23.8103 < mapHeight - padding.
Proof.
  apply (waypoints_inside_canvas (mkWaypoint "Dhaka" 23.8103 90.4125 "Bangladesh")).
  do 13 right. left. reflexivity.
Defined.

(** ** The plane angle *)

Lemma div_pos_neg y x : 0 < y -> x < 0 -> y / x < 0.
Proof.
  intros Hy Hx. replace (y / x) with (- (y / - x)) by (field; lra).
  assert (0 < y / - x) by (apply Rdiv_lt_0_compat; lra). lra.
Qed.

Lemma atan2_range y x : - PI < JS.atan2 y x <= PI.
Proof.
  unfold JS.atan2. pose proof PI_RGT_0 as Hpi.
  pose proof (atan_bound (y / x)) as Hb.
  destruct (Rlt_dec 0 x); [lra|].
  destruct (Rlt_dec x 0) as [Hx|Hx].
  - destruct (Rle_dec 0 y) as [Hy|Hy].
    + assert (atan (y / x) <= 0).
      { destruct (Req_dec_T y 0) as [-> | Hy0].
        - unfold Rdiv. rewrite Rmult_0_l, atan_0. lra.
        - left. rewrite <- atan_0. apply atan_increasing.
          apply div_pos_neg; lra. }
      lra.
    + assert (0 < atan (y / x)).
      { rewrite <- atan_0. apply atan_increasing.
        replace (y / x) with ((- y) / (- x)) by (field; lra).
        apply Rdiv_lt_0_compat; lra. }
      lra.
  - destruct (Rlt_dec 0 y); [lra|]. destruct (Rlt_dec y 0); lra.
Qed.

Lemma atan2_upper_half y x : 0 < y -> 0 < JS.atan2 y x < PI.
Proof.
  intro Hy. unfold JS.atan2. pose proof PI_RGT_0 as Hpi.
  pose proof (atan_bound (y / x)) as Hb.
  destruct (Rlt_dec 0 x) as [Hx|Hx].
  - assert (0 < atan (y / x)).
    { rewrite <- atan_0. apply atan_increasing. apply Rdiv_lt_0_compat; lra. }
    lra.
  - destruct (Rlt_dec x 0) as [Hx'|Hx'].
    + destruct (Rle_dec 0 y); [|lra].
      assert (atan (y / x) < 0).
      { rewrite <- atan_0. apply atan_increasing. apply div_pos_neg; lra. }
      lra.
    + destruct (Rlt_dec 0 y); lra.
Qed.

Lemma degrees_of_radians a lo hi :
  lo * PI < a * 180 -> a * 180 <= hi * PI ->
  lo < a * (180 / PI) <= hi.
Proof.
  intros H1 H2. pose proof PI_RGT_0 as Hpi.
  assert (Hk : 0 < / PI) by (apply Rinv_0_lt_compat; exact Hpi).
  replace lo with (lo * PI * / PI) by (field; lra).
  replace hi with (hi * PI * / PI) by (field; lra).
  replace (a * (180 / PI)) with (a * 180 * / PI) by (field; lra).
  split.
  - apply Rmult_lt_compat_r; assumption.
  - apply Rmult_le_compat_r; lra.
Qed.

(** X28: the plane angle is always in the half-open interval from -180 to
    180 degrees; it is the default 90 when a coordinate is missing or
    zero. *)
Theorem getPlaneAngle_range (fd : FlightData) :
  - 180 < getPlaneAngle fd <= 180 /\
  (JS.truthy (currentLat fd) && JS.truthy (currentLon fd) = false ->
   getPlaneAngle fd = 90).
Proof.
  unfold getPlaneAngle.
  destruct (JS.truthy (currentLat fd)), (JS.truthy (currentLon fd)); simpl;
    try (split; [lra | reflexivity]).
  split; [|discriminate].
  match goal with
  | |- context [JS.atan2 ?u ?v] => pose proof (atan2_range u v) as H
  end.
  apply degrees_of_radians; lra.
Qed.

(** X29: for a plane west of the arrival longitude the angle lies
    strictly between 0 and 180 degrees, and on the latitude of the arrival
    point it is exactly 90, the value also used when there is no
    position. *)
Theorem getPlaneAngle_eastbound (fd : FlightData) :
  JS.truthy (currentLat fd) = true -> JS.truthy (currentLon fd) = true ->
  JS.toNumber (currentLon fd) < Geo.lon arrival ->
  0 < getPlaneAngle fd < 180 /\
  (JS.toNumber (currentLat fd) = Geo.lat arrival -> getPlaneAngle fd = 90).
Proof.
  intros Hla Hlo Hw. unfold getPlaneAngle. rewrite Hla, Hlo. simpl.
  pose proof PI_RGT_0 as Hpi.
  split.
  - match goal with
    | |- context [JS.atan2 ?u ?v] => pose proof (atan2_upper_half u v) as H
    end.
    specialize (H ltac:(simpl in Hw; lra)).
    set (a := JS.atan2 _ _) in *.
    assert (Hk : 0 < 180 / PI) by (apply Rdiv_lt_0_compat; lra).
    split; [apply Rmult_lt_0_compat; lra|].
    replace 180 with (PI * (180 / PI)) at 2 by (field; lra).
    apply Rmult_lt_compat_r; lra.
  - intro E. simpl in E, Hw. rewrite E, Rminus_diag.
    unfold JS.atan2.
    destruct (Rlt_dec 0 0); [lra|]. destruct (Rlt_dec 0 0); [lra|].
    match goal with
    | |- context [Rlt_dec 0 ?u] => destruct (Rlt_dec 0 u); [|lra]
    end.
    field. lra.
Qed.

Lemma getPlaneAngle_eastbound_witness :
  0 < getPlaneAngle (buildFlightData recBG202) < 180.
Proof.
  apply (getPlaneAngle_eastbound (buildFlightData recBG202)).
  - simpl. apply numTruthy_true. lra.
  - simpl. apply numTruthy_true. lra.
  - simpl. lra.
Defined.

(** ** The region label, continued *)

(** X30: [getCurrentRegion] answers "Unknown" exactly when the latitude or
    the longitude is the number 0; everywhere else it answers one of the
    eight region names. *)
Theorem getCurrentRegion_unknown_iff (lat lon : R) :
  (getCurrentRegion lat lon = "Unknown" <-> lat = 0 \/ lon = 0) /\
  (getCurrentRegion lat lon = "Unknown" \/
   In (getCurrentRegion lat lon) (map snd regionThresholds ++ ["Bangladesh"])).
Proof.
  destruct (Req_dec_T lat 0) as [-> | Hlat].
  { assert (E : getCurrentRegion 0 lon = "Unknown").
    { unfold getCurrentRegion. rewrite (numTruthy_false 0) by reflexivity. reflexivity. }
    rewrite E. split; [split; auto | left; reflexivity]. }
  destruct (Req_dec_T lon 0) as [-> | Hlon].
  { rewrite getCurrentRegion_zero_lon. split; [split; auto | left; reflexivity]. }
  rewrite getCurrentRegion_buckets by assumption. simpl.
  split.
  - split; [|intros [H | H]; contradiction].
    repeat (destruct (JS.ltb lon _); [discriminate|]). discriminate.
  - right. repeat (destruct (JS.ltb lon _); [tauto|]). tauto.
Qed.

(** ** Where rounding matters *)

Lemma sqrtOrNaN_some x : 0 <= x -> sqrtOrNaN x = Some (sqrt x).
Proof. intro H. unfold sqrtOrNaN. destruct (Rlt_dec x 0); [lra | reflexivity]. Qed.

Lemma sqrtOrNaN_none x : x < 0 -> sqrtOrNaN x = None.
Proof. intro H. unfold sqrtOrNaN. destruct (Rlt_dec x 0); [reflexivity | lra]. Qed.

Lemma distanceOfA_number a :
  0 <= a <= 1 ->
  distanceOfA a = Some (6371 * (2 * JS.atan2 (sqrt a) (sqrt (1 - a)))).
Proof.
  intros [H0 H1]. unfold distanceOfA.
  rewrite !sqrtOrNaN_some by lra. reflexivity.
Qed.

Lemma distanceOfA_nan a : a < 0 \/ 1 < a -> distanceOfA a = None.
Proof.
  intros [H | H]; unfold distanceOfA.
  - rewrite (sqrtOrNaN_none a) by lra. reflexivity.
  - rewrite (sqrtOrNaN_none (1 - a)) by lra. destruct (sqrtOrNaN a); reflexivity.
Qed.

(** In exact arithmetic [a] is in [0, 1] and the two readings agree. *)
Lemma distanceOfA_exact lat1 lon1 lat2 lon2 :
  distanceOfA (haversineA lat1 lon1 lat2 lon2) =
  Some (calculateDistance lat1 lon1 lat2 lon2).
Proof.
  rewrite distanceOfA_number by apply haversineA_range. reflexivity.
Qed.

(** X20: from the haversine term [a] that lines 91 to 96 computed, lines
    97 and 98 return 6371 km times the angle in [0, pi] whose cosine is
    [1 - 2 a] when [a] lies in [0, 1], a distance between 0 and half the
    circumference, and NaN when [a] is below 0 or above 1.  In exact
    arithmetic [1 - 2 a] is the cosine the spherical law of cosines gives
    for the two points, and the result is [calculateDistance]. *)
Theorem distanceOfA_great_circle (a lat1 lon1 lat2 lon2 : R) :
  (0 <= a <= 1 ->
   exists d, distanceOfA a = Some d /\
             0 <= d <= 6371 * PI /\
             0 <= d / 6371 <= PI /\
             cos (d / 6371) = 1 - 2 * a) /\
  (a < 0 \/ 1 < a -> distanceOfA a = None) /\
  1 - 2 * haversineA lat1 lon1 lat2 lon2 =
    sin (lat1 * PI / 180) * sin (lat2 * PI / 180) +
    cos (lat1 * PI / 180) * cos (lat2 * PI / 180) *
      cos ((lon2 - lon1) * PI / 180) /\
  distanceOfA (haversineA lat1 lon1 lat2 lon2) =
    Some (calculateDistance lat1 lon1 lat2 lon2).
Proof.
  split; [|split; [apply distanceOfA_nan | split;
    [apply haversineA_central | apply distanceOfA_exact]]].
  intros [H0 H1]. rewrite distanceOfA_number by lra.
  eexists; split; [reflexivity|].
  set (al := JS.atan2 (sqrt a) (sqrt (1 - a))).
  pose proof (atan2_quadrant (sqrt a) (sqrt (1 - a)) (sqrt_pos _) (sqrt_pos _)) as Hq.
  fold al in Hq.
  replace (6371 * (2 * al) / 6371) with (2 * al) by field.
  split; [lra|]. split; [lra|].
  rewrite cos_2a_sin.
  destruct (atan2_unit (sqrt a) (sqrt (1 - a)) (sqrt_pos _) (sqrt_pos _)) as [Hs _].
  { rewrite !sqrt_sqrt by lra. ring. }
  fold al in Hs. rewrite Rmult_assoc, Hs, sqrt_sqrt by lra. reflexivity.
Qed.

(** The progress from the computed [a]: a number in [0, 1] while [a] is in
    [0, 1], NaN as soon as [a] exceeds 1. *)
Lemma progressOfA_number a :
  0 <= a <= 1 -> exists p, progressOfA a = Some p /\ 0 <= p <= 1.
Proof.
  intro H. unfold progressOfA. rewrite distanceOfA_number by exact H.
  eexists; split; [reflexivity|].
  pose proof (atan2_nonneg (sqrt a) (sqrt (1 - a)) (sqrt_pos _) (sqrt_pos _)) as Hq.
  split; [|apply Rmin_r].
  apply Rmin_glb; [|lra].
  apply Rmult_le_pos; [lra|]. left. apply Rinv_0_lt_compat, totalDistance_pos.
Qed.

Lemma progressOfA_nan a : 1 < a -> progressOfA a = None.
Proof.
  intro H. unfold progressOfA. rewrite distanceOfA_nan by (right; exact H). reflexivity.
Qed.

Lemma progressOfA_exact lat lon :
  progressOfA (haversineA (Geo.lat departure) (Geo.lon departure) lat lon) =
  Some (progressOf lat lon).
Proof. unfold progressOfA. rewrite distanceOfA_exact. reflexivity. Qed.

(** The record next to Heathrow's antipode passes the guard with an exact
    callsign: a poll whose feed holds it stores the state built from it. *)
Lemma recAntipode_exact : isExact recAntipode = true.
Proof.
  unfold isExact. replace (exactCallsign (callsignOf recAntipode)) with true by reflexivity.
  rewrite andb_true_r. guard_eval.
Qed.

Lemma poll_recAntipode :
  runPolls [(0%Z, Payload (Some [recAntipode]))] initialCells =
    {| flightData := buildFlightData recAntipode; loading := false;
       error := None; lastUpdate := Some 0%Z |}.
Proof.
  simpl runPolls. apply fetch_found. simpl. unfold selectTrackedFlight.
  rewrite scanStates_exact by apply recAntipode_exact. reflexivity.
Qed.

(** On doubles, for the distance from Heathrow (51.47, -0.4543) to
    (-51.47000026, 179.5457): the arguments of [Math.sin] and [Math.cos],
    and, with the doubles nearest to the sines and cosines of these
    arguments, the value of [a], one unit in the last place above 1, and
    the NaN of [Math.sqrt(1 - a)].  With 1.0000000000000002 for [a] the
    progress of line 201 is NaN. *)
Module DoubleFacts.
Import PrimFloat.

Lemma antipode_arguments :
  Double.halfDelta 0x1.9bc28f5c28f5cp+5%float (-0x1.9bc28f7f0e7dfp+5)%float
    = (-0x1.cbf0b9d8109efp-1)%float /\
  Double.radians 0x1.9bc28f5c28f5cp+5%float = 0x1.cbf0b9c49331fp-1%float /\
  Double.radians (-0x1.9bc28f7f0e7dfp+5)%float = (-0x1.cbf0b9eb8e0bdp-1)%float /\
  Double.halfDelta (-0x1.d13404ea4a8c1p-2)%float 0x1.671765fd8adacp+7%float
    = 0x1.921fb54442d18p+0%float.
Proof. vm_compute. repeat split. Qed.

Lemma antipode_a_above_one :
  Double.haversineA (-0x1.908747a221074p-1)%float 0x1.3eefefde920d9p-1%float
                    0x1.3eefefc013c6cp-1%float 1%float
    = 0x1.0000000000001p+0%float /\
  is_nan (Double.sqrtOneMinusA 0x1.0000000000001p+0%float) = true.
Proof. vm_compute. split; reflexivity. Qed.

End DoubleFacts.

Lemma progress_nan_next_to_antipode :
  progressOfA (1 + / 2 ^ 52) = None.
Proof.
  apply progressOfA_nan.
  assert (0 < / 2 ^ 52) by (apply Rinv_0_lt_compat, pow_lt; lra). lra.
Qed.
